(** * Moodle-DL: the ntfy notification formatter

    A shallow embedding of
    [moodle_dl/notifications/ntfy/ntfy_formatter.py] and the properties of
    the messages it builds.

    Conventions of the embedding
    - a Python [str] is the list of its Unicode code points ([N]); string
      literals of the source are written [utf8 "..."], the decoding of the
      UTF-8 bytes of the literal;
    - [Optional[str]] is [option str]; a Python truth test on such a value
      is [truthy] ([None] and the empty string are false);
    - a raised exception is the [Raise] case of [result]; statements and
      [for] loops that may raise are sequenced with [x <- e ;; k];
    - the insertion-ordered [dict] of the aggregator is an association
      list, in insertion order. *)

From Stdlib Require Import NArith ZArith Ascii String Bool Lia Arith.
From Stdlib Require Import Permutation List.
From Stdlib Require DecimalNat.
Import ListNotations.

Open Scope N_scope.

(** ** Python strings *)

Module Py.

Definition char := N.
Definition str := list char.

(** Decoding of UTF-8, used for the literals of the source only. *)
Fixpoint utf8_decode (bs : list N) : str :=
  match bs with
  | [] => []
  | b :: t =>
      if b <? 128 then b :: utf8_decode t
      else if b <? 224 then
        match t with
        | b1 :: t1 => ((b - 192) * 64 + (b1 - 128)) :: utf8_decode t1
        | _ => []
        end
      else if b <? 240 then
        match t with
        | b1 :: b2 :: t2 =>
            ((b - 224) * 4096 + (b1 - 128) * 64 + (b2 - 128))
              :: utf8_decode t2
        | _ => []
        end
      else
        match t with
        | b1 :: b2 :: b3 :: t3 =>
            ((b - 240) * 262144 + (b1 - 128) * 4096
             + (b2 - 128) * 64 + (b3 - 128)) :: utf8_decode t3
        | _ => []
        end
  end.

Definition utf8 (s : string) : str :=
  utf8_decode (map N_of_ascii (list_ascii_of_string s)).

(** The empty string literal. *)
Definition empty : str := [].

(** A one-character literal. *)
Definition ch (a : ascii) : char := N_of_ascii a.

Definition LF : char := 10.

(** [a == b] on strings. *)
Fixpoint str_eqb (a b : str) : bool :=
  match a, b with
  | [], [] => true
  | x :: a', y :: b' => (x =? y) && str_eqb a' b'
  | _, _ => false
  end.

(** [c in s] for a one-character [c]. *)
Definition contains (c : char) (s : str) : bool :=
  existsb (N.eqb c) s.

(** [str.isspace] on one character: the Unicode white space of CPython
    ([Py_UNICODE_ISSPACE]). *)
Definition isspace (c : char) : bool :=
  ((9 <=? c) && (c <=? 13)) || ((28 <=? c) && (c <=? 32))
  || (c =? 133) || (c =? 160) || (c =? 5760)
  || ((8192 <=? c) && (c <=? 8202))
  || (c =? 8232) || (c =? 8233) || (c =? 8239) || (c =? 8287)
  || (c =? 12288).

Fixpoint lstrip (s : str) : str :=
  match s with
  | [] => []
  | c :: s' => if isspace c then lstrip s' else s
  end.

(** [s.rstrip()] *)
Definition rstrip (s : str) : str := List.rev (lstrip (List.rev s)).

(** [s.split(sep, maxsplit)] for a one-character separator. *)
Fixpoint split (sep : char) (maxsplit : nat) (s : str) : list str :=
  match s with
  | [] => [[]]
  | c :: s' =>
      if c =? sep then
        match maxsplit with
        | O => [s]
        | S k => [] :: split sep k s'
        end
      else
        match split sep maxsplit s' with
        | field :: fields => (c :: field) :: fields
        | [] => [[c]]
        end
  end.

(** [s.replace(old, new)] for one-character [old] and [new]. *)
Definition replace (old new : char) (s : str) : str :=
  map (fun c => if c =? old then new else c) s.

(** [str(n)] for a non-negative integer. *)
Fixpoint uint_str (d : Decimal.uint) : str :=
  match d with
  | Decimal.Nil => []
  | Decimal.D0 d => 48 :: uint_str d
  | Decimal.D1 d => 49 :: uint_str d
  | Decimal.D2 d => 50 :: uint_str d
  | Decimal.D3 d => 51 :: uint_str d
  | Decimal.D4 d => 52 :: uint_str d
  | Decimal.D5 d => 53 :: uint_str d
  | Decimal.D6 d => 54 :: uint_str d
  | Decimal.D7 d => 55 :: uint_str d
  | Decimal.D8 d => 56 :: uint_str d
  | Decimal.D9 d => 57 :: uint_str d
  end.

Definition str_of_nat (n : nat) : str := uint_str (Nat.to_uint n).

(** Truth value of an [Optional[str]]. *)
Definition truthy (o : option str) : bool :=
  match o with
  | Some (_ :: _) => true
  | _ => false
  end.

(** [a or b] where [a] is an [Optional[str]] and [b] a [str]. *)
Definition or_else (a : option str) (b : str) : str :=
  match a with
  | Some s => if truthy a then s else b
  | None => b
  end.

End Py.

Import Py.

(** ** Exceptions *)

(** The [ValueError]s the formatter can meet, by the message CPython
    gives them. *)
Inductive value_error : Type :=
| not_enough_values_to_unpack (expected got : nat)
| too_many_values_to_unpack (expected : nat)
| time_data_does_not_match_format
| unconverted_data_remains
| year_is_out_of_range
| day_is_out_of_range_for_month.

Inductive exn : Type :=
| ValueError (why : value_error)
| AssertionError (msg : str).

Inductive result (A : Type) : Type :=
| Ok (a : A)
| Raise (e : exn).
Arguments Ok {A} a.
Arguments Raise {A} e.

Definition bind {A B : Type} (r : result A) (k : A -> result B) : result B :=
  match r with
  | Ok a => k a
  | Raise e => Raise e
  end.

Notation "x <- e ;; k" := (bind e (fun x => k))
  (at level 61, e at next level, right associativity).

(** A [for] loop whose body updates the state [s] and may raise. *)
Fixpoint for_each {A S : Type} (body : A -> S -> result S)
    (l : list A) (s : S) : result S :=
  match l with
  | [] => Ok s
  | x :: l' => s' <- body x s ;; for_each body l' s'
  end.

(** A list comprehension [[f(x) for x in l]] whose element may raise. *)
Fixpoint list_comp {A B : Type} (f : A -> result B) (l : list A)
    : result (list B) :=
  match l with
  | [] => Ok []
  | x :: l' => y <- f x ;; ys <- list_comp f l' ;; Ok (y :: ys)
  end.

(** ** [datetime.strptime] and [datetime.strftime]

    The two library calls of [iso_to_time_dmy], each at the one format the
    source passes.  [strptime] follows CPython's [_strptime]: the format is
    turned into a regular expression, matched at the start of the data
    (alternatives in order), the whole data must be consumed, and the
    fields must make a date.  [\d] takes every decimal digit of Unicode,
    as the library does on a [str], and [int] reads its value. *)

Record datetime : Type := mk_datetime
  { year : N; month : N; day : N; hour : N; minute : N }.

Definition matcher : Type := str -> option (N * str).

Definition in_range (lo hi : ascii) (c : char) : bool :=
  (ch lo <=? c) && (c <=? ch hi).

Definition digit_value (c : char) : N := c - 48.

(** The digit zero of every run of decimal digits of Unicode (version
    14.0, the table of CPython 3.11): the ten digits of a run follow one
    another, from zero to nine. *)
Definition decimal_zeros : list char :=
  [ 48; 1632; 1776; 1984; 2406; 2534; 2662; 2790; 2918; 3046; 3174; 3302;
    3430; 3558; 3664; 3792; 3872; 4160; 4240; 6112; 6160; 6470; 6608; 6784;
    6800; 6992; 7088; 7232; 7248; 42528; 43216; 43264; 43472; 43504; 43600;
    44016; 65296; 66720; 68912; 69734; 69872; 69942; 70096; 70384; 70736;
    70864; 71248; 71360; 71472; 71904; 72016; 72784; 73040; 73120; 92768;
    92864; 93008; 120782; 120792; 120802; 120812; 120822; 123200; 123632;
    125264; 130032 ].

(** The value of a decimal digit, as [int] reads it. *)
Definition decimal_value (c : char) : option N :=
  match find (fun z => (z <=? c) && (c <=? z + 9)) decimal_zeros with
  | Some z => Some (c - z)
  | None => None
  end.

(** A class of characters that stand for a number. *)
Definition char_class : Type := char -> option N.

(** [[lo-hi]], for two ASCII digits [lo] and [hi] *)
Definition rng (lo hi : ascii) : char_class := fun c =>
  if in_range lo hi c then Some (digit_value c) else None.

(** [\d] *)
Definition digit : char_class := decimal_value.

(** Two characters, of the classes [a] and [b]. *)
Definition two (a b : char_class) : matcher := fun s =>
  match s with
  | c1 :: c2 :: r =>
      match a c1, b c2 with
      | Some v1, Some v2 => Some (10 * v1 + v2, r)
      | _, _ => None
      end
  | _ => None
  end.

(** One character of the class [a]. *)
Definition one (a : char_class) : matcher := fun s =>
  match s with
  | c :: r =>
      match a c with
      | Some v => Some (v, r)
      | None => None
      end
  | [] => None
  end.

(** [p|q] *)
Definition alt (p q : matcher) : matcher := fun s =>
  match p s with
  | Some v => Some v
  | None => q s
  end.

Notation "p <|> q" := (alt p q) (at level 50, left associativity).

(** A literal character. *)
Definition lit (c : ascii) (s : str) : option str :=
  match s with
  | c' :: r => if c' =? ch c then Some r else None
  | [] => None
  end.

(** [\s+] *)
Definition spaces (s : str) : option str :=
  match s with
  | c :: r => if isspace c then Some (lstrip r) else None
  | [] => None
  end.

(** [%Y]: [\d\d\d\d] *)
Definition re_Y : matcher := fun s =>
  match s with
  | a :: b :: c :: d :: r =>
      match digit a, digit b, digit c, digit d with
      | Some va, Some vb, Some vc, Some vd =>
          Some (1000 * va + 100 * vb + 10 * vc + vd, r)
      | _, _, _, _ => None
      end
  | _ => None
  end.

(** [%m]: [1[0-2]|0[1-9]|[1-9]] *)
Definition re_m : matcher :=
  two (rng "1" "1") (rng "0" "2") <|> two (rng "0" "0") (rng "1" "9")
  <|> one (rng "1" "9").

(** [%d]: [3[0-1]|[1-2]\d|0[1-9]|[1-9]| [1-9]] *)
Definition re_d : matcher :=
  two (rng "3" "3") (rng "0" "1") <|> two (rng "1" "2") digit
  <|> two (rng "0" "0") (rng "1" "9") <|> one (rng "1" "9")
  <|> (fun s =>
         match lit " " s with
         | Some r => one (rng "1" "9") r
         | None => None
         end).

(** [%H]: [2[0-3]|[0-1]\d|\d] *)
Definition re_H : matcher :=
  two (rng "2" "2") (rng "0" "3") <|> two (rng "0" "1") digit <|> one digit.

(** [%M]: [[0-5]\d|\d] *)
Definition re_M : matcher :=
  two (rng "0" "5") digit <|> one digit.

Definition obind {A B : Type} (o : option A) (k : A -> option B) : option B :=
  match o with
  | Some a => k a
  | None => None
  end.

(** The regular expression of ["%Y.%m.%d %H:%M"], matched at the start of
    the data: the fields found and what is left of the data. *)
Definition match_Ymd_HM (data : str) : option (datetime * str) :=
  obind (re_Y data) (fun '(Y, s) =>
  obind (lit "." s) (fun s =>
  obind (re_m s) (fun '(m, s) =>
  obind (lit "." s) (fun s =>
  obind (re_d s) (fun '(d, s) =>
  obind (spaces s) (fun s =>
  obind (re_H s) (fun '(H, s) =>
  obind (lit ":" s) (fun s =>
  obind (re_M s) (fun '(M, s) =>
  Some (mk_datetime Y m d H M, s)))))))))).

Definition is_leap (y : N) : bool :=
  (y mod 4 =? 0) && (negb (y mod 100 =? 0) || (y mod 400 =? 0)).

Definition days_in_month (y m : N) : N :=
  if m =? 2 then (if is_leap y then 29 else 28)
  else if (m =? 4) || (m =? 6) || (m =? 9) || (m =? 11) then 30
  else 31.

(** [datetime.strptime(data, "%Y.%m.%d %H:%M")] *)
Definition strptime_Ymd_HM (data : str) : result datetime :=
  match match_Ymd_HM data with
  | None => Raise (ValueError time_data_does_not_match_format)
  | Some (dt, rest) =>
      match rest with
      | _ :: _ => Raise (ValueError unconverted_data_remains)
      | [] =>
          if year dt <? 1 then Raise (ValueError year_is_out_of_range)
          else if days_in_month (year dt) (month dt) <? day dt
          then Raise (ValueError day_is_out_of_range_for_month)
          else Ok dt
      end
  end.

(** Two decimal digits, zero padded. *)
Definition pad2 (n : N) : str := [48 + n / 10; 48 + n mod 10].

Definition hour12 (h : N) : N :=
  if h mod 12 =? 0 then 12 else h mod 12.

(** [date_obj.strftime("%I:%M %p %d.%m.%y")], in the C locale. *)
Definition strftime_IMp_dmy (dt : datetime) : str :=
  pad2 (hour12 (hour dt)) ++ utf8 ":" ++ pad2 (minute dt) ++ utf8 " "
  ++ (if hour dt <? 12 then utf8 "AM" else utf8 "PM") ++ utf8 " "
  ++ pad2 (day dt) ++ utf8 "." ++ pad2 (month dt) ++ utf8 "."
  ++ pad2 (year dt mod 100).

(** ** The data the formatter reads and builds *)

(** Modelled from the spec: [moodle_dl.types.File], of which the formatter
    reads these fields only. *)
Record File : Type := mk_File
  { content_filename : str;
    content_filepath : str;
    content_fileurl : option str;
    content_type : str;
    module_modname : str;
    modified : bool;
    deleted : bool;
    moved : bool }.

(** Modelled from the spec: [moodle_dl.types.Course], of which the
    formatter reads these fields only. *)
Record Course : Type := mk_Course
  { fullname : str;
    overwrite_name_with : option str;
    files : list File }.

Record NtfyMessage : Type := mk_NtfyMessage
  { title : str;
    text : str;
    source_url : option str }.

(** ** The formatting functions *)

Definition remove_until_first_space (s : str) : str :=
  if contains (ch " ") s then nth 1 (split (ch " ") 1 s) [] else s.

Definition iso_to_time_dmy (date_str time_str : str) : result str :=
  let time_str := replace (ch "_") (ch ":") time_str in
  let iso_str := date_str ++ utf8 " " ++ time_str in
  date_obj <- strptime_Ymd_HM iso_str ;;
  Ok (strftime_IMp_dmy date_obj).

Definition _get_course_name_str (course_name : str) : str :=
  utf8 "📘 " ++ course_name.

Definition _get_change_type (file : File) : str :=
  if modified file then utf8 "modified"
  else if deleted file then utf8 "deleted"
  else if moved file then utf8 "moved"
  else utf8 "new".

Definition _get_status_str (file : File) : str :=
  let status := _get_change_type file in
  if negb (str_eqb status (utf8 "new")) then status else empty.

(** [d.get(key, default)] on a dictionary given by its items. *)
Fixpoint dict_get (d : list (str * str)) (key default : str) : str :=
  match d with
  | [] => default
  | (k, v) :: d' => if str_eqb k key then v else dict_get d' key default
  end.

Definition _get_content_type (file : File) : str :=
  let map_str :=
    [ (utf8 "assign_file", utf8 "Assigment File");
      (utf8 "submission_file", utf8 "Submission File") ] in
  let content_type := content_type file in
  dict_get map_str content_type content_type.

Definition make_generic_message (file : File) (course_name : str)
    (emoji : option str) : NtfyMessage :=
  let title := empty in
  let title :=
    match emoji with
    | Some e => if truthy emoji then title ++ e ++ utf8 " " else title
    | None => title
    end in
  let title := title ++ content_filename file in
  let text := _get_course_name_str course_name in
  let url := content_fileurl file in
  mk_NtfyMessage title text url.

(** The body of the loop of [make_generic_combined_message]: the text
    after the line of [file] is added. *)
Definition add_file_line (add_content_type : bool) (text : str) (file : File)
    : str :=
  let status := _get_status_str file in
  let type_str := _get_content_type file in
  let text := text ++ utf8 "● " ++ content_filename file in
  let text :=
    if add_content_type then text ++ utf8 " (" ++ type_str ++ utf8 ")"
    else text in
  let text :=
    match status with
    | _ :: _ => text ++ utf8 " (" ++ status ++ utf8 ")"
    | [] => text
    end in
  text ++ [LF].

Definition make_generic_combined_message (files : list File)
    (course_name : str) (keyword : str) (emoji : option str)
    (add_content_type : bool) : NtfyMessage :=
  let title := empty in
  let title :=
    match emoji with
    | Some e => if truthy emoji then title ++ e ++ utf8 " " else title
    | None => title
    end in
  let title :=
    title ++ str_of_nat (List.length files) ++ utf8 " " ++ keyword
          ++ utf8 " updates" in
  let text := _get_course_name_str course_name ++ [LF] in
  let text := fold_left (add_file_line add_content_type) files text in
  let text := rstrip text in
  mk_NtfyMessage title text None.

Definition make_resource_message (file : File) (course_name : str)
    : NtfyMessage :=
  make_generic_message file course_name (Some (utf8 "📚")).

Definition make_resource_combined_message (files : list File)
    (course_name : str) : NtfyMessage :=
  make_generic_combined_message files course_name (utf8 "file")
    (Some (utf8 "📚")) false.

Definition make_calendar_message (file : File) (course_name : str)
    : result NtfyMessage :=
  match split (ch " ") 2 (content_filename file) with
  | [iso_date; iso_time; event_name] =>
      time_date_str <- iso_to_time_dmy iso_date iso_time ;;
      let title := utf8 "⏰ " ++ event_name ++ utf8 " @ " ++ time_date_str in
      let text := _get_course_name_str course_name in
      let url := content_fileurl file in
      Ok (mk_NtfyMessage title text url)
  | fields =>
      if (List.length fields <? 3)%nat
      then Raise (ValueError (not_enough_values_to_unpack 3 (List.length fields)))
      else Raise (ValueError (too_many_values_to_unpack 3))
  end.

Definition make_quiz_message (file : File) (course_name : str)
    : NtfyMessage :=
  make_generic_message file course_name (Some (utf8 "💻")).

Definition make_assign_message (file : File) (course_name : str)
    : NtfyMessage :=
  make_generic_message file course_name (Some (utf8 "📝")).

Definition make_assign_combined_message (files : list File)
    (course_name : str) : NtfyMessage :=
  make_generic_combined_message files course_name (utf8 "assignment file")
    (Some (utf8 "📝")) true.

Definition make_forum_message (file : File) (course_name : str)
    : NtfyMessage :=
  let title := utf8 "✉️ " ++ remove_until_first_space (content_filepath file) in
  let text := _get_course_name_str course_name in
  let url := content_fileurl file in
  mk_NtfyMessage title text url.

(** ** [FileAggregatorByMod] *)

(** The dictionary [self.map], as its items in insertion order. *)
Definition bucket_map : Type := list (str * list File).

(** [key in d] *)
Definition dict_mem (key : str) (d : bucket_map) : bool :=
  existsb (fun item => str_eqb (fst item) key) d.

(** [d[key] = value]: a key already there keeps its place. *)
Fixpoint dict_set (key : str) (value : list File) (d : bucket_map)
    : bucket_map :=
  match d with
  | [] => [(key, value)]
  | (k, v) :: d' =>
      if str_eqb k key then (k, value) :: d'
      else (k, v) :: dict_set key value d'
  end.

(** [d[key].append(file)], for a key of [d]; [add] calls it on such keys
    only (a key that is missing would be a [KeyError]). *)
Fixpoint dict_append (key : str) (file : File) (d : bucket_map)
    : bucket_map :=
  match d with
  | [] => []
  | (k, v) :: d' =>
      if str_eqb k key then (k, v ++ [file]) :: d'
      else (k, v) :: dict_append key file d'
  end.

Record FileAggregatorByMod : Type := mk_FileAggregatorByMod
  { map_ : bucket_map }.

Definition default_mod_categories : list str :=
  [ utf8 "assign"; utf8 "calendar"; utf8 "folder"; utf8 "forum";
    utf8 "resource"; utf8 "quiz" ].

(** [FileAggregatorByMod(mod_categories)] *)
Definition FileAggregatorByMod_init (mod_categories : list str)
    : FileAggregatorByMod :=
  mk_FileAggregatorByMod
    (fold_left (fun d key => dict_set key [] d)
       (mod_categories ++ [utf8 "misc"]) []).

(** [aggregator.add(file)] *)
Definition add (self : FileAggregatorByMod) (file : File)
    : FileAggregatorByMod :=
  if dict_mem (module_modname file) (map_ self)
  then mk_FileAggregatorByMod
         (dict_append (module_modname file) file (map_ self))
  else mk_FileAggregatorByMod (dict_append (utf8 "misc") file (map_ self)).

(** ** [create_full_moodle_diff_messages] *)

Definition unprocessed_msg : str :=
  utf8 "Some module_modname category is left unprocessed.".

(** The body of the loop over [aggregator.map.items()]: [messages] after
    the bucket [(mod, files)] is handled. *)
Definition handle_bucket (course_name : str) (item : str * list File)
    (messages : list NtfyMessage) : result (list NtfyMessage) :=
  let '(mod_, files) := item in
  match files with
  | [] => Ok messages
  | _ :: _ =>
      if str_eqb mod_ (utf8 "assign") then
        let msg := make_assign_combined_message files course_name in
        Ok (messages ++ [msg])
      else if str_eqb mod_ (utf8 "calendar") then
        msgs <- list_comp (fun file => make_calendar_message file course_name)
                  files ;;
        Ok (messages ++ msgs)
      else if str_eqb mod_ (utf8 "forum") then
        msgs <- list_comp (fun file => Ok (make_forum_message file course_name))
                  files ;;
        Ok (messages ++ msgs)
      else if existsb (str_eqb mod_) [utf8 "folder"; utf8 "resource"] then
        let msg := make_resource_combined_message files course_name in
        Ok (messages ++ [msg])
      else if str_eqb mod_ (utf8 "quiz") then
        msgs <- list_comp (fun file => Ok (make_quiz_message file course_name))
                  files ;;
        Ok (messages ++ msgs)
      else if str_eqb mod_ (utf8 "misc") then
        let msg :=
          make_generic_combined_message files course_name (utf8 "misc")
            (Some (utf8 "🗂️")) false in
        Ok (messages ++ [msg])
      else Raise (AssertionError unprocessed_msg)
  end.

(** The body of the loop over [changes]. *)
Definition handle_course (course : Course) (messages : list NtfyMessage)
    : result (list NtfyMessage) :=
  let course_name := or_else (overwrite_name_with course) (fullname course) in
  let aggregator := FileAggregatorByMod_init default_mod_categories in
  let aggregator := fold_left add (files course) aggregator in
  for_each (handle_bucket course_name) (map_ aggregator) messages.

Definition create_full_moodle_diff_messages (changes : list Course)
    : result (list NtfyMessage) :=
  let messages := [] in
  for_each handle_course changes messages.

(** ** Notions used to state the properties *)

(** The keys of [self.map] for the default categories, in the order of
    insertion. *)
Definition category_order : list str :=
  [ utf8 "assign"; utf8 "calendar"; utf8 "folder"; utf8 "forum";
    utf8 "resource"; utf8 "quiz"; utf8 "misc" ].

(** The category of a module name: the name itself when it is one of the
    categories (exact equality), the catch-all otherwise. *)
Definition classify (modname : str) : str :=
  if existsb (fun key => str_eqb key modname) category_order
  then modname else utf8 "misc".

(** The events of a category, in their order of arrival. *)
Definition bucket (cat : str) (fs : list File) : list File :=
  filter (fun f => str_eqb (classify (module_modname f)) cat) fs.

(** The categories that have a branch in the builder. *)
Definition has_rule (key : str) : bool :=
  existsb (fun k => str_eqb key k) category_order.

(** The results of [f] on the elements of [l], one after the other: the
    first exception, or all the lists appended. *)
Fixpoint concat_map_r {A B : Type} (f : A -> result (list B)) (l : list A)
    : result (list B) :=
  match l with
  | [] => Ok []
  | x :: l' => ys <- f x ;; zs <- concat_map_r f l' ;; Ok (ys ++ zs)
  end.

(** The name a course is shown under. *)
Definition display_name (c : Course) : str :=
  match overwrite_name_with c with
  | Some (x :: s) => x :: s
  | _ => fullname c
  end.

(** The messages of one category of a course. *)
Definition category_messages (c : Course) (cat : str)
    : result (list NtfyMessage) :=
  handle_bucket (display_name c) (cat, bucket cat (files c)) [].

(** The messages of a course: category after category, in the fixed
    order. *)
Definition course_messages (c : Course) : result (list NtfyMessage) :=
  concat_map_r (category_messages c) category_order.

(** The messages of a batch: course after course, in the order of the
    input. *)
Definition ordered_messages (changes : list Course)
    : result (list NtfyMessage) :=
  concat_map_r course_messages changes.

(** [s.startswith(p)] *)
Fixpoint starts_with (p s : str) : bool :=
  match p, s with
  | [], _ => true
  | x :: p', y :: s' => (x =? y) && starts_with p' s'
  | _ :: _, [] => false
  end.

(** [s.split("\n")] *)
Fixpoint lines (s : str) : list str :=
  match s with
  | [] => [[]]
  | c :: s' =>
      if c =? LF then [] :: lines s'
      else
        match lines s' with
        | l :: ls => (c :: l) :: ls
        | [] => [[c]]
        end
  end.

(** ["\n".join(ls)] *)
Fixpoint join_lines (ls : list str) : str :=
  match ls with
  | [] => []
  | [l] => l
  | l :: ls' => l ++ [LF] ++ join_lines ls'
  end.

Definition is_bullet_line (l : str) : bool := starts_with (utf8 "●") l.

Definition bullet_lines (body : str) : nat :=
  List.length (filter is_bullet_line (lines body)).

(** A combined message is known by the marker its title starts with. *)
Definition is_combined (m : NtfyMessage) : bool :=
  existsb (fun marker => starts_with marker (title m))
    [utf8 "📝 "; utf8 "📚 "; utf8 "🗂️ "].

(** The events a rendered message stands for: its bullet lines when it is
    a combined message, one otherwise. *)
Definition referenced_events (m : NtfyMessage) : nat :=
  if is_combined m then bullet_lines (text m) else 1%nat.

Definition total_referenced (msgs : list NtfyMessage) : nat :=
  list_sum (map referenced_events msgs).

Definition total_input (changes : list Course) : nat :=
  list_sum (map (fun c => List.length (files c)) changes).

Definition no_line_break (s : str) : bool := negb (contains LF s).

(** The line of [f] in a combined message holds no line break of its
    own: the file name has none, nor the content type when it is shown. *)
Definition plain_line (add_content_type : bool) (f : File) : bool :=
  no_line_break (content_filename f)
  && (negb add_content_type || no_line_break (content_type f)).

(** The annotation of a bullet line: nothing for a new file, the status
    in brackets otherwise. *)
Definition status_annotation (f : File) : str :=
  if modified f || deleted f || moved f
  then utf8 " (" ++ _get_change_type f ++ utf8 ")"
  else [].

(** The line of a file in a combined message, without its line break. *)
Definition bullet_line (add_content_type : bool) (f : File) : str :=
  utf8 "● " ++ content_filename f
  ++ (if add_content_type
      then utf8 " (" ++ _get_content_type f ++ utf8 ")" else [])
  ++ status_annotation f.

(** Four decimal digits, zero padded. *)
Definition pad4 (n : N) : str :=
  [48 + n / 1000; 48 + (n / 100) mod 10; 48 + (n / 10) mod 10; 48 + n mod 10].

(** The date token [YYYY.MM.DD] and the time token [HH_MM]. *)
Definition date_token (Y m d : N) : str :=
  pad4 Y ++ utf8 "." ++ pad2 m ++ utf8 "." ++ pad2 d.

Definition time_token (H M : N) : str :=
  pad2 H ++ utf8 "_" ++ pad2 M.

(** The pattern [^\d{2}:\d{2} (AM|PM) \d{2}\.\d{2}\.\d{2}$]. *)
Definition matches_display (s : str) : bool :=
  match s with
  | [h1; h2; c1; m1; m2; s1; a; p; s2; d1; d2; p1; o1; o2; p2; y1; y2] =>
      forallb (in_range "0" "9") [h1; h2; m1; m2; d1; d2; o1; o2; y1; y2]
      && (c1 =? ch ":") && (s1 =? ch " ")
      && ((a =? ch "A") || (a =? ch "P")) && (p =? ch "M")
      && (s2 =? ch " ") && (p1 =? ch ".") && (p2 =? ch ".")
  | _ => false
  end.

(** The number of occurrences of a character. *)
Definition count_char (c : char) (s : str) : nat :=
  List.length (filter (N.eqb c) s).

(** [s.split()]: the maximal runs of characters that are not white space.
    [cur] is the run being read, last character first. *)
Fixpoint tokens_from (cur : str) (s : str) : list str :=
  match s with
  | [] => match cur with [] => [] | _ :: _ => [List.rev cur] end
  | c :: s' =>
      if isspace c then
        match cur with
        | [] => tokens_from [] s'
        | _ :: _ => List.rev cur :: tokens_from [] s'
        end
      else tokens_from (c :: cur) s'
  end.

Definition tokens (s : str) : list str := tokens_from [] s.

(** A file with the given name, content type, module name and flags, and
    nothing else. *)
Definition file_of (name ctype modname : string) (m d v : bool) : File :=
  mk_File (utf8 name) empty None (utf8 ctype) (utf8 modname) m d v.

(** The file [f] under another name. *)
Definition with_filename (f : File) (name : str) : File :=
  mk_File name (content_filepath f) (content_fileurl f) (content_type f)
    (module_modname f) (modified f) (deleted f) (moved f).

(** ** Notions of the order and of the count of the events *)

(** The rule of a category, written from the specification: what the
    bucket of the category [cat], with the events [b] in their order of
    arrival, adds to the messages of a course shown as [cn].  An empty
    bucket adds nothing; assign, folder, resource and misc add one
    combined message for the bucket; calendar, forum and quiz add one
    message for each event, in the order of the bucket. *)
Definition category_rule (cn cat : str) (b : list File)
    : result (list NtfyMessage) :=
  match b with
  | [] => Ok []
  | _ :: _ =>
      if str_eqb cat (utf8 "assign") then
        Ok [make_assign_combined_message b cn]
      else if str_eqb cat (utf8 "calendar") then
        list_comp (fun f => make_calendar_message f cn) b
      else if str_eqb cat (utf8 "folder") then
        Ok [make_resource_combined_message b cn]
      else if str_eqb cat (utf8 "forum") then
        Ok (map (fun f => make_forum_message f cn) b)
      else if str_eqb cat (utf8 "resource") then
        Ok [make_resource_combined_message b cn]
      else if str_eqb cat (utf8 "quiz") then
        Ok (map (fun f => make_quiz_message f cn) b)
      else if str_eqb cat (utf8 "misc") then
        Ok [make_generic_combined_message b cn (utf8 "misc")
              (Some (utf8 "🗂️")) false]
      else Raise (AssertionError unprocessed_msg)
  end.

(** The places of a string where a line break is followed by a bullet. *)
Fixpoint bullet_breaks (s : str) : nat :=
  match s with
  | [] => 0%nat
  | c :: s' =>
      ((if (c =? LF)%N && is_bullet_line s' then 1 else 0)
       + bullet_breaks s')%nat
  end.

(** The last character of a string is a line break. *)
Fixpoint ends_with_LF (s : str) : bool :=
  match s with
  | [] => false
  | [c] => c =? LF
  | _ :: s' => ends_with_LF s'
  end.

(** The categories that are rendered as one combined message. *)
Definition combined_category (cat : str) : bool :=
  existsb (str_eqb cat)
    [utf8 "assign"; utf8 "folder"; utf8 "resource"; utf8 "misc"].

(** The places where a name shown in the combined message of a bucket
    holds a line break followed by a bullet: in the name of the course,
    in the names of the files and, for assign, in the content types as
    they are displayed.  A bucket that is empty, or rendered event by
    event, shows none. *)
Definition shown_breaks (cn : str) (item : str * list File) : nat :=
  let '(cat, b) := item in
  match b with
  | [] => 0%nat
  | _ :: _ =>
      if combined_category cat then
        (bullet_breaks cn
         + list_sum
             (map (fun f =>
                     bullet_breaks (content_filename f)
                     + (if str_eqb cat (utf8 "assign")
                        then bullet_breaks (_get_content_type f) else 0))
                b))%nat
      else 0%nat
  end.

(** The buckets of a course, as the builder fills them. *)
Definition course_buckets (c : Course) : bucket_map :=
  map_ (fold_left add (files c)
          (FileAggregatorByMod_init default_mod_categories)).

(** The places of a batch where a name shown in a combined message holds
    a line break followed by a bullet. *)
Definition batch_breaks (changes : list Course) : nat :=
  list_sum
    (map (fun c =>
            list_sum (map (shown_breaks (display_name c)) (course_buckets c)))
       changes).

(** The message of one event of a category that is rendered event by
    event. *)
Definition event_message (cn cat : str) (f : File) : result NtfyMessage :=
  if str_eqb cat (utf8 "calendar") then make_calendar_message f cn
  else if str_eqb cat (utf8 "forum") then Ok (make_forum_message f cn)
  else if str_eqb cat (utf8 "quiz") then Ok (make_quiz_message f cn)
  else Raise (AssertionError unprocessed_msg).

(** The messages [group] render each event of a bucket once: an empty
    bucket has no message; a bucket rendered event by event has, for each
    event in turn, the message of this event, which counts for one; a
    combined bucket has one message, whose body is the line of the course
    followed, for each event in turn, by the line of this event. *)
Definition renders_each (cn : str) (item : str * list File)
    (group : list NtfyMessage) : Prop :=
  let '(cat, b) := item in
  match b with
  | [] => group = []
  | _ :: _ =>
      if combined_category cat then
        exists m,
          group = [m] /\ is_combined m = true
          /\ text m
             = rstrip
                 (join_lines
                    (_get_course_name_str cn
                     :: map (bullet_line (str_eqb cat (utf8 "assign"))) b))
      else
        Forall2
          (fun f m => event_message cn cat f = Ok m /\ is_combined m = false)
          b group
  end.

(** ** Inputs of the examples *)

Definition algebra_batch : list Course :=
  [ mk_Course (utf8 "Algebra I") None
      [ file_of "Syllabus.pdf" "file" "resource" false false false;
        file_of "Notes.pdf" "file" "resource" false false false;
        file_of "HW1.pdf" "assign_file" "assign" true false false ] ].


Definition midterm_event : File :=
  file_of "2024.09.23 14_35 Midterm Exam" "event" "calendar" false false false.

Definition one_token_event : File :=
  file_of "onlyonetoken" "event" "calendar" false false false.

(** A calendar event whose name is empty: the file name ends with the
    space after the time. *)
Definition unnamed_event : File :=
  file_of "2024.09.23 14_35 " "event" "calendar" false false false.

(** A file whose name holds a line break followed by a bullet. *)
Definition line_break_batch : list Course :=
  [ mk_Course (utf8 "C") None
      [ mk_File (utf8 "a" ++ [LF] ++ utf8 "● b") empty None (utf8 "file")
          (utf8 "page") false false false ] ].

(** Buckets under a key that is not a category of the builder. *)
Definition wiki_items : bucket_map :=
  [ (utf8 "wiki", [file_of "Home" "page" "wiki" false false false]) ].

(** ** Notions and tactics of the proofs *)

(** The dictionary whose bucket for [cat] is [g cat]. *)
Definition buckets_of (g : str -> list File) : bucket_map :=
  map (fun cat => (cat, g cat)) category_order.

(** Evaluates the comparisons of closed strings in the goal. *)
Ltac eval_keys :=
  repeat match goal with
  | |- context [str_eqb (utf8 ?a) (utf8 ?b)] =>
      let v := eval vm_compute in (str_eqb (utf8 a) (utf8 b)) in
      change (str_eqb (utf8 a) (utf8 b)) with v
  end;
  cbn [existsb orb].

(** Linear arithmetic with division and remainder by constants. *)
Ltac div_lia := zify; Z.to_euclidean_division_equations; lia.

(** Case analysis on a number below 64. *)
Ltac small_cases n :=
  destruct n as [|n]; [|do 6 (try (destruct n as [n|n|]; try lia))].

(** ** Notions of the further properties *)

(** The number written in decimal at the start of a string. *)
Fixpoint read_digits (s : str) (acc : nat) : nat :=
  match s with
  | c :: s' =>
      if in_range "0" "9" c
      then read_digits s' (10 * acc + N.to_nat (digit_value c))
      else acc
  | [] => acc
  end.

Definition leading_number (s : str) : nat := read_digits s 0.

(** [list(d.keys())] *)
Definition dict_keys (d : bucket_map) : list str := map fst d.

(** [d.get(key)] *)
Fixpoint dict_lookup (key : str) (d : bucket_map) : option (list File) :=
  match d with
  | [] => None
  | (k, v) :: d' => if str_eqb k key then Some v else dict_lookup key d'
  end.

(** The number of files held by a dictionary. *)
Definition dict_size (d : bucket_map) : nat :=
  list_sum (map (fun item => List.length (snd item)) d).

(** The elements of [l] that are not in [seen], each at its first
    occurrence. *)
Fixpoint first_occurrences (seen l : list str) : list str :=
  match l with
  | [] => []
  | k :: l' =>
      if existsb (fun key => str_eqb key k) seen
      then first_occurrences seen l'
      else k :: first_occurrences (seen ++ [k]) l'
  end.

(** The category of a module name for an aggregator built on the
    categories [cats]. *)
Definition classify_with (cats : list str) (modname : str) : str :=
  if existsb (fun key => str_eqb key modname) (cats ++ [utf8 "misc"])
  then modname else utf8 "misc".

(** The courses of a batch that have files. *)
Definition courses_with_files (changes : list Course) : nat :=
  List.length
    (filter (fun c => match files c with [] => false | _ :: _ => true end)
       changes).

(** * Properties *)

(** ** Strings *)

Lemma str_eqb_eq (a b : str) : str_eqb a b = true <-> a = b.
Proof.
  revert b; induction a as [|x a IH]; intros [|y b]; simpl;
    try (split; [discriminate | discriminate]); [tauto|].
  rewrite andb_true_iff, N.eqb_eq, IH.
  split; [intros [-> ->]; reflexivity | intros [= -> ->]; auto].
Qed.

Lemma str_eqb_refl (a : str) : str_eqb a a = true.
Proof. apply str_eqb_eq; reflexivity. Qed.

(** ** The aggregator *)

Lemma init_buckets :
  map_ (FileAggregatorByMod_init default_mod_categories)
  = buckets_of (fun _ => []).
Proof. reflexivity. Qed.

Lemma classify_cases (mn : str) :
  (In mn category_order /\ classify mn = mn)
  \/ (existsb (fun key => str_eqb key mn) category_order = false
      /\ classify mn = utf8 "misc").
Proof.
  unfold classify.
  destruct (existsb _ category_order) eqn:E; [left | right; auto].
  split; [|reflexivity].
  apply existsb_exists in E as (k & Hk & E).
  apply str_eqb_eq in E; subst; exact Hk.
Qed.

Lemma add_buckets (g : str -> list File) (f : File) :
  map_ (add (mk_FileAggregatorByMod (buckets_of g)) f)
  = buckets_of (fun cat =>
      if str_eqb (classify (module_modname f)) cat
      then g cat ++ [f] else g cat).
Proof.
  unfold add.
  destruct (classify_cases (module_modname f)) as [[Hin Hc] | [Hex Hc]];
    rewrite Hc.
  - simpl in Hin.
    repeat (destruct Hin as [Hin | Hin];
            [rewrite <- Hin; reflexivity|]).
    contradiction.
  - cbn [map_]. unfold dict_mem, buckets_of.
    assert (E : existsb (fun item : str * list File => str_eqb (fst item) (module_modname f))
                 (map (fun cat => (cat, g cat)) category_order) = false).
    { rewrite <- Hex. clear. induction category_order; simpl; congruence. }
    rewrite E. clear E.
    unfold category_order in *.
    cbn [existsb] in Hex. repeat (apply orb_false_elim in Hex as [? Hex]).
    reflexivity.
Qed.

Lemma buckets_of_ext (g h : str -> list File) :
  (forall cat, g cat = h cat) -> buckets_of g = buckets_of h.
Proof. intros E; unfold buckets_of; apply map_ext; intros; rewrite E; auto. Qed.

Lemma fold_add_buckets (fs : list File) (g : str -> list File) :
  map_ (fold_left add fs (mk_FileAggregatorByMod (buckets_of g)))
  = buckets_of (fun cat => g cat ++ bucket cat fs).
Proof.
  revert g; induction fs as [|f fs IH]; intros g; simpl.
  - apply buckets_of_ext; intros; rewrite app_nil_r; reflexivity.
  - pose proof (add_buckets g f) as E.
    destruct (add _ f) as [d]; simpl in E; subst d.
    rewrite IH. apply buckets_of_ext; intros cat.
    destruct (str_eqb _ cat); [rewrite <- app_assoc|]; reflexivity.
Qed.

(** After every file of a course is added, the dictionary holds, key after
    key in the fixed order, the events of that category in their order of
    arrival. *)
Lemma classify_in_order (mn : str) : In (classify mn) category_order.
Proof.
  destruct (classify_cases mn) as [[H ->] | [_ ->]]; [exact H|].
  simpl; tauto.
Qed.

Lemma aggregator_buckets (fs : list File) :
  map_ (fold_left add fs (FileAggregatorByMod_init default_mod_categories))
  = map (fun cat => (cat, bucket cat fs)) category_order.
Proof.
  change (FileAggregatorByMod_init default_mod_categories)
    with (mk_FileAggregatorByMod (buckets_of (fun _ => []))).
  rewrite fold_add_buckets. reflexivity.
Qed.

(** ** The loops of the builder *)

Lemma bind_Ok {A : Type} (r : result A) : (x <- r ;; Ok x) = r.
Proof. destruct r; reflexivity. Qed.

Lemma list_comp_total {A B : Type} (f : A -> B) (l : list A) :
  list_comp (fun x => Ok (f x)) l = Ok (map f l).
Proof. induction l as [|x l IH]; simpl; [|rewrite IH]; reflexivity. Qed.

Lemma handle_bucket_acc (cn : str) (item : str * list File)
    (messages : list NtfyMessage) :
  handle_bucket cn item messages
  = (new <- handle_bucket cn item [] ;; Ok (messages ++ new)).
Proof.
  destruct item as [k [|f fs]]; unfold handle_bucket.
  - simpl. rewrite app_nil_r. reflexivity.
  - repeat match goal with
    | |- context [if ?b then _ else _] => destruct b
    end; try reflexivity;
    match goal with
    | |- context [list_comp ?f ?l] => destruct (list_comp f l); reflexivity
    end.
Qed.

Lemma for_each_acc {A B : Type} (body : A -> list B -> result (list B))
    (f : A -> result (list B)) (l : list A) :
  (forall x acc, body x acc = (new <- f x ;; Ok (acc ++ new))) ->
  forall acc,
    for_each body l acc
    = (new <- concat_map_r f l ;; Ok (acc ++ new)).
Proof.
  intros Hbody; induction l as [|x l IH]; intros acc; simpl.
  - rewrite app_nil_r; reflexivity.
  - rewrite Hbody. destruct (f x) as [ys|e]; simpl; [|reflexivity].
    rewrite IH. destruct (concat_map_r _ l) as [zs|e]; simpl; [|reflexivity].
    rewrite app_assoc; reflexivity.
Qed.

Lemma concat_map_r_map {A B C : Type} (f : B -> result (list C))
    (g : A -> B) (l : list A) :
  concat_map_r f (map g l) = concat_map_r (fun x => f (g x)) l.
Proof. induction l as [|x l IH]; simpl; [|rewrite IH]; reflexivity. Qed.

Lemma or_else_display (c : Course) :
  or_else (overwrite_name_with c) (fullname c) = display_name c.
Proof.
  unfold display_name; destruct (overwrite_name_with c) as [[|x s]|];
    reflexivity.
Qed.

Lemma handle_course_messages (c : Course) (messages : list NtfyMessage) :
  handle_course c messages
  = (new <- course_messages c ;; Ok (messages ++ new)).
Proof.
  unfold handle_course, course_messages, category_messages.
  rewrite or_else_display, aggregator_buckets.
  rewrite (for_each_acc _ _ _ (handle_bucket_acc (display_name c))).
  rewrite concat_map_r_map. reflexivity.
Qed.

Lemma builder_ordered (changes : list Course) :
  create_full_moodle_diff_messages changes = ordered_messages changes.
Proof.
  unfold create_full_moodle_diff_messages, ordered_messages.
  rewrite (for_each_acc _ _ _ handle_course_messages).
  destruct (concat_map_r course_messages changes); reflexivity.
Qed.

(** ** The rules of the categories *)

Lemma handle_bucket_rule (cn cat : str) (b : list File) :
  In cat category_order ->
  handle_bucket cn (cat, b) [] = category_rule cn cat b.
Proof.
  intros Hcat. unfold handle_bucket, category_rule.
  destruct b as [|f b']; [reflexivity|].
  unfold category_order in Hcat; cbn [In] in Hcat.
  repeat (destruct Hcat as [<- | Hcat]); [..|contradiction]; eval_keys;
    eval_keys; cbv iota; rewrite ?list_comp_total; cbn [bind app];
    try reflexivity.
  apply bind_Ok.
Qed.

Lemma concat_map_r_ext {A B : Type} (f g : A -> result (list B))
    (l : list A) :
  (forall x, In x l -> f x = g x) -> concat_map_r f l = concat_map_r g l.
Proof.
  induction l as [|x l IH]; intros H; [reflexivity|]. cbn [concat_map_r].
  rewrite (H x (or_introl eq_refl)), (IH (fun y Hy => H y (or_intror Hy))).
  reflexivity.
Qed.

Lemma builder_rules (changes : list Course) :
  create_full_moodle_diff_messages changes
  = concat_map_r
      (fun c =>
         concat_map_r
           (fun cat =>
              category_rule (display_name c) cat (bucket cat (files c)))
           category_order)
      changes.
Proof.
  rewrite builder_ordered. unfold ordered_messages.
  apply concat_map_r_ext. intros c _. unfold course_messages.
  apply concat_map_r_ext. intros cat Hcat.
  apply handle_bucket_rule, Hcat.
Qed.


(** ** Lines and trailing white space *)

Lemma contains_cons (c x : char) (s : str) :
  contains c (x :: s) = false -> (x =? c) = false /\ contains c s = false.
Proof.
  unfold contains; simpl; intros H; apply orb_false_elim in H as [H1 H2].
  rewrite N.eqb_sym; auto.
Qed.

Lemma contains_app (c : char) (a b : str) :
  contains c (a ++ b) = contains c a || contains c b.
Proof. apply existsb_app. Qed.

Lemma lines_plain (l : str) : contains LF l = false -> lines l = [l].
Proof.
  induction l as [|x l IH]; intros H; [reflexivity|].
  apply contains_cons in H as [Hx Hl]; simpl.
  rewrite Hx, (IH Hl); reflexivity.
Qed.

Lemma lines_app_LF (l r : str) :
  contains LF l = false -> lines (l ++ LF :: r) = l :: lines r.
Proof.
  induction l as [|x l IH]; intros H; [reflexivity|].
  apply contains_cons in H as [Hx Hl]; simpl.
  rewrite Hx, (IH Hl); reflexivity.
Qed.

Lemma lines_concat (ls : list str) (x : str) :
  Forall (fun l => contains LF l = false) ls -> contains LF x = false ->
  lines (concat (map (fun l => l ++ [LF]) ls) ++ x) = ls ++ [x].
Proof.
  intros Hls Hx; induction Hls as [|l ls Hl _ IH]; simpl.
  - apply lines_plain, Hx.
  - rewrite <- !app_assoc; simpl. rewrite (lines_app_LF _ _ Hl), IH.
    reflexivity.
Qed.

Lemma lstrip_app (u v : str) :
  lstrip u <> [] -> lstrip (u ++ v) = lstrip u ++ v.
Proof.
  induction u as [|c u IH]; simpl; [congruence|].
  destruct (isspace c); auto.
Qed.

Lemma lstrip_snoc (u : str) (c : char) :
  isspace c = false ->
  exists w u', lstrip (u ++ [c]) = u' ++ [c] /\ u = w ++ u'.
Proof.
  intros Hc; induction u as [|x u (w & u' & E & Eu)]; simpl.
  - rewrite Hc. exists [], []; auto.
  - destruct (isspace x).
    + exists (x :: w), u'; subst; auto.
    + exists [], (x :: u); auto.
Qed.

Lemma rstrip_app (a b : str) :
  rstrip b <> [] -> rstrip (a ++ b) = a ++ rstrip b.
Proof.
  unfold rstrip; intros H. rewrite rev_app_distr, lstrip_app.
  - rewrite rev_app_distr, rev_involutive; reflexivity.
  - intros E; rewrite E in H; apply H; reflexivity.
Qed.

Lemma rstrip_LF (s : str) : rstrip (s ++ [LF]) = rstrip s.
Proof. unfold rstrip; rewrite rev_app_distr; reflexivity. Qed.

Lemma rstrip_cons (c : char) (s : str) :
  isspace c = false ->
  exists s' w, rstrip (c :: s) = c :: s' /\ s = s' ++ w.
Proof.
  intros Hc; unfold rstrip; simpl.
  destruct (lstrip_snoc (List.rev s) c Hc) as (w & u' & E & Eu).
  rewrite E, rev_app_distr; simpl.
  exists (List.rev u'), (List.rev w); split; [reflexivity|].
  rewrite <- rev_app_distr, <- Eu, rev_involutive; reflexivity.
Qed.

Lemma filter_Forall_id {A : Type} (f : A -> bool) (l : list A) :
  Forall (fun x => f x = true) l -> filter f l = l.
Proof.
  induction 1 as [|x l Hx _ IH]; simpl; [|rewrite Hx, IH]; reflexivity.
Qed.

(** The body of a combined message has one bullet line for each line
    added after the heading. *)
Lemma bullet_lines_body (c0 : char) (h : str) (ls : list str) :
  isspace c0 = false -> is_bullet_line (c0 :: h) = false ->
  contains LF (c0 :: h) = false ->
  Forall (fun l => is_bullet_line l = true /\ contains LF l = false) ls ->
  bullet_lines
    (rstrip ((c0 :: h) ++ [LF] ++ concat (map (fun l => l ++ [LF]) ls)))
  = List.length ls.
Proof.
  intros Hsp Hnb Hh Hls; unfold bullet_lines.
  destruct ls as [|l0 ls0] using rev_ind.
  - simpl concat. rewrite app_nil_r, rstrip_LF.
    destruct (rstrip_cons c0 h Hsp) as (s' & w & -> & Eh).
    rewrite lines_plain.
    + simpl. change (is_bullet_line (c0 :: s')) with (is_bullet_line (c0 :: h)).
      rewrite Hnb. reflexivity.
    + subst h. change (c0 :: s' ++ w) with ((c0 :: s') ++ w) in Hh.
      rewrite contains_app in Hh. apply orb_false_elim in Hh as [Hh _].
      exact Hh.
  - clear IHls0. apply Forall_app in Hls as [Hls0 Hl0].
    inversion Hl0 as [|? ? [Hb Hn] _]; subst.
    rewrite map_app, concat_app; simpl concat. rewrite app_nil_r.
    rewrite !app_assoc, rstrip_LF.
    destruct l0 as [|b l0]; [discriminate|].
    assert (Eb : b = 9679).
    { change (is_bullet_line (b :: l0)) with ((9679 =? b) && true) in Hb.
      apply andb_true_iff in Hb as [Hb _]. apply N.eqb_eq in Hb; auto. }
    assert (Hsb : isspace b = false) by (subst b; reflexivity).
    destruct (rstrip_cons b l0 Hsb) as (s' & w & E & El).
    rewrite rstrip_app by (rewrite E; discriminate). rewrite E.
    rewrite <- !app_assoc. change ([LF] ++ ?x) with (LF :: x).
    rewrite (lines_app_LF _ _ Hh).
    rewrite lines_concat.
    + simpl. rewrite Hnb, filter_app, length_app; simpl.
      change (is_bullet_line (b :: s')) with (is_bullet_line (b :: l0)).
      rewrite Hb.
      rewrite length_app; simpl.
      rewrite filter_Forall_id; [reflexivity|].
      eapply Forall_impl; [|exact Hls0]. intros a [Ha _]; exact Ha.
    + eapply Forall_impl; [|exact Hls0]. intros a [_ Ha]; exact Ha.
    + subst l0. change (b :: s' ++ w) with ((b :: s') ++ w) in Hn.
      rewrite contains_app in Hn. apply orb_false_elim in Hn as [Hn _].
      exact Hn.
Qed.

(** ** Combined messages *)

Lemma add_file_line_eq (act : bool) (t : str) (f : File) :
  add_file_line act t f = t ++ bullet_line act f ++ [LF].
Proof.
  unfold add_file_line, bullet_line, status_annotation, _get_status_str,
    _get_change_type.
  destruct act, (modified f), (deleted f), (moved f);
    cbv -[app content_filename _get_content_type];
    rewrite <- ?app_assoc; reflexivity.
Qed.

Lemma fold_add_file_line (act : bool) (fs : list File) (t : str) :
  fold_left (add_file_line act) fs t
  = t ++ concat (map (fun l => l ++ [LF]) (map (bullet_line act) fs)).
Proof.
  revert t; induction fs as [|f fs IH]; intros t; cbn [fold_left map concat].
  - rewrite app_nil_r; reflexivity.
  - rewrite IH, add_file_line_eq, <- !app_assoc; reflexivity.
Qed.

Lemma combined_text (fs : list File) (cn kw : str) (e : option str)
    (act : bool) :
  text (make_generic_combined_message fs cn kw e act)
  = rstrip (_get_course_name_str cn ++ [LF]
            ++ concat (map (fun l => l ++ [LF]) (map (bullet_line act) fs))).
Proof.
  unfold make_generic_combined_message; cbn [text].
  rewrite fold_add_file_line, <- app_assoc; reflexivity.
Qed.

Lemma join_lines_cons (h : str) (ls : list str) :
  h ++ [LF] ++ concat (map (fun l => l ++ [LF]) ls)
  = join_lines (h :: ls) ++ [LF].
Proof.
  revert h; induction ls as [|l ls IH]; intros h; [reflexivity|].
  change (join_lines (h :: l :: ls)) with (h ++ [LF] ++ join_lines (l :: ls)).
  cbn [map concat]. rewrite <- !app_assoc. do 2 f_equal.
  rewrite <- IH. reflexivity.
Qed.

(** The body of a combined message: the heading and the lines of the
    files joined by line breaks, white space at the end removed. *)
Lemma combined_text_join (fs : list File) (cn kw : str) (e : option str)
    (act : bool) :
  text (make_generic_combined_message fs cn kw e act)
  = rstrip (join_lines (_get_course_name_str cn :: map (bullet_line act) fs)).
Proof. rewrite combined_text, join_lines_cons, rstrip_LF; reflexivity. Qed.

Lemma no_line_break_app (a b : str) :
  no_line_break (a ++ b) = no_line_break a && no_line_break b.
Proof.
  unfold no_line_break; rewrite contains_app, negb_orb; reflexivity.
Qed.

Lemma content_type_plain (f : File) :
  no_line_break (content_type f) = true ->
  no_line_break (_get_content_type f) = true.
Proof.
  unfold _get_content_type; cbn [dict_get].
  repeat destruct (str_eqb _ _); auto.
Qed.

Lemma status_annotation_plain (f : File) :
  no_line_break (status_annotation f) = true.
Proof.
  unfold status_annotation, _get_change_type.
  destruct (modified f), (deleted f), (moved f); reflexivity.
Qed.

Lemma bullet_line_plain (act : bool) (f : File) :
  plain_line act f = true ->
  is_bullet_line (bullet_line act f) = true
  /\ contains LF (bullet_line act f) = false.
Proof.
  unfold plain_line; intros H; apply andb_true_iff in H as [Hn Ht].
  split; [reflexivity|].
  apply negb_true_iff. change (no_line_break (bullet_line act f) = true).
  unfold bullet_line. rewrite !no_line_break_app, Hn, status_annotation_plain.
  destruct act; [|reflexivity]. cbn [negb orb] in Ht.
  rewrite !no_line_break_app, (content_type_plain f Ht); reflexivity.
Qed.

(** A combined message has as many bullet lines as files, when no name
    holds a line break. *)
Lemma combined_bullet_lines (fs : list File) (cn kw : str) (e : option str)
    (act : bool) :
  no_line_break cn = true -> forallb (plain_line act) fs = true ->
  bullet_lines (text (make_generic_combined_message fs cn kw e act))
  = List.length fs.
Proof.
  intros Hcn Hfs. rewrite combined_text.
  change (_get_course_name_str cn) with (128216 :: 32 :: cn).
  rewrite bullet_lines_body; [apply length_map | reflexivity | reflexivity | |].
  - apply negb_true_iff in Hcn. unfold contains in *; simpl; exact Hcn.
  - apply Forall_map, Forall_forall; intros f Hf.
    apply bullet_line_plain. rewrite forallb_forall in Hfs; auto.
Qed.

(** ** Counting the events behind the messages *)

Lemma total_referenced_app (a b : list NtfyMessage) :
  total_referenced (a ++ b) = (total_referenced a + total_referenced b)%nat.
Proof. unfold total_referenced; rewrite map_app, list_sum_app; reflexivity. Qed.

Lemma concat_map_r_total {A : Type} (f : A -> result (list NtfyMessage))
    (w : A -> nat) (l : list A) :
  (forall x ys, In x l -> f x = Ok ys -> total_referenced ys = w x) ->
  forall zs, concat_map_r f l = Ok zs ->
  total_referenced zs = list_sum (map w l).
Proof.
  induction l as [|x l IH]; intros Hf zs; simpl.
  - intros [= <-]; reflexivity.
  - destruct (f x) as [ys|e] eqn:Ex; simpl; [|discriminate].
    destruct (concat_map_r f l) as [zs'|e] eqn:El; simpl; [|discriminate].
    intros [= <-]. rewrite total_referenced_app.
    rewrite (Hf x ys (or_introl eq_refl) Ex).
    rewrite (IH (fun y ys' Hy => Hf y ys' (or_intror Hy)) zs' eq_refl).
    reflexivity.
Qed.

Lemma list_comp_Forall2 {A B : Type} (f : A -> result B) (l : list A)
    (ys : list B) :
  list_comp f l = Ok ys -> Forall2 (fun x y => f x = Ok y) l ys.
Proof.
  revert ys; induction l as [|x l IH]; intros ys; simpl.
  - intros [= <-]; constructor.
  - destruct (f x) as [y|e] eqn:Ex; simpl; [|discriminate].
    destruct (list_comp f l) as [ys'|e]; simpl; [|discriminate].
    intros [= <-]; constructor; auto.
Qed.

Lemma Forall2_map_graph {A B : Type} (g : A -> B) (l : list A) :
  Forall2 (fun x y => y = g x) l (map g l).
Proof. induction l; constructor; auto. Qed.

Lemma single_events_total {A : Type} (P : A -> NtfyMessage -> Prop)
    (l : list A) (ms : list NtfyMessage) :
  (forall x m, P x m -> is_combined m = false) ->
  Forall2 P l ms -> total_referenced ms = List.length l.
Proof.
  intros HP; induction 1 as [|x m l ms Hxm _ IH]; [reflexivity|].
  unfold total_referenced in *; simpl. unfold referenced_events at 1.
  rewrite (HP x m Hxm), IH; reflexivity.
Qed.

Lemma calendar_not_combined (f : File) (cn : str) (m : NtfyMessage) :
  make_calendar_message f cn = Ok m -> is_combined m = false.
Proof.
  unfold make_calendar_message.
  destruct (split _ 2 _) as [|a [|b [|c [|d l]]]]; try discriminate.
  destruct (iso_to_time_dmy a b); simpl; [|discriminate].
  intros [= <-]; reflexivity.
Qed.

Lemma forum_not_combined (f : File) (cn : str) :
  is_combined (make_forum_message f cn) = false.
Proof. reflexivity. Qed.

Lemma quiz_not_combined (f : File) (cn : str) :
  is_combined (make_quiz_message f cn) = false.
Proof. reflexivity. Qed.

Lemma combined_is_combined (fs : list File) (cn kw e : str) (act : bool) :
  In e [utf8 "📝"; utf8 "📚"; utf8 "🗂️"] ->
  is_combined (make_generic_combined_message fs cn kw (Some e) act) = true.
Proof.
  intros [<- | [<- | [<- | []]]]; reflexivity.
Qed.

Lemma list_sum_map_add {A : Type} (a b : A -> nat) (l : list A) :
  list_sum (map (fun x => (a x + b x)%nat) l)
  = (list_sum (map a l) + list_sum (map b l))%nat.
Proof. induction l as [|x l IH]; simpl; [reflexivity | rewrite IH; lia]. Qed.

(** Every event is in the bucket of exactly one category. *)
Lemma bucket_lengths (fs : list File) :
  list_sum (map (fun cat => List.length (bucket cat fs)) category_order)
  = List.length fs.
Proof.
  induction fs as [|f fs IH].
  - reflexivity.
  - rewrite (map_ext _ (fun cat =>
        ((if str_eqb (classify (module_modname f)) cat then 1 else 0)
         + List.length (bucket cat fs))%nat)).
    + rewrite list_sum_map_add, IH. cbn [List.length]. f_equal.
      destruct (classify_cases (module_modname f)) as [[Hin ->] | [_ ->]].
      * unfold category_order in Hin; cbn [In] in Hin.
        repeat (destruct Hin as [<- | Hin]); [..|contradiction]; reflexivity.
      * reflexivity.
    + intros cat. unfold bucket; cbn [filter].
      destruct (str_eqb _ cat); reflexivity.
Qed.

(** ** Line breaks followed by a bullet *)

Lemma is_bullet_line_app (a b : str) :
  is_bullet_line (a ++ b)
  = match a with [] => is_bullet_line b | _ :: _ => is_bullet_line a end.
Proof. destruct a; reflexivity. Qed.

(** The first line of a string starts with a bullet when the string does,
    and the other lines that do are as many as the line breaks followed by
    a bullet. *)
Lemma lines_bullets (s : str) :
  exists l ls,
    lines s = l :: ls /\ is_bullet_line l = is_bullet_line s
    /\ List.length (filter is_bullet_line ls) = bullet_breaks s.
Proof.
  induction s as [|c s (l & ls & E & Hl & Hls)].
  - exists [], []. repeat split.
  - cbn [lines bullet_breaks]. destruct (c =? LF) eqn:Ec.
    + apply N.eqb_eq in Ec; subst c. exists [], (lines s).
      split; [reflexivity|]. split; [reflexivity|].
      rewrite E. cbn [filter]. rewrite Hl. cbn [andb].
      destruct (is_bullet_line s); cbn [List.length]; rewrite Hls; lia.
    + rewrite E. exists (c :: l), ls. split; [reflexivity|].
      split; [reflexivity|]. cbn [andb]. rewrite Hls. reflexivity.
Qed.

Lemma bullet_lines_breaks (s : str) :
  bullet_lines s
  = ((if is_bullet_line s then 1 else 0) + bullet_breaks s)%nat.
Proof.
  unfold bullet_lines. destruct (lines_bullets s) as (l & ls & -> & Hl & Hls).
  cbn [filter]. rewrite Hl.
  destruct (is_bullet_line s); cbn [List.length]; rewrite Hls; reflexivity.
Qed.

Lemma bullet_breaks_app (a b : str) :
  bullet_breaks (a ++ b)
  = (bullet_breaks a + bullet_breaks b
     + (if ends_with_LF a && is_bullet_line b then 1 else 0))%nat.
Proof.
  induction a as [|c a IH]; [simpl; lia|].
  cbn [app bullet_breaks]. rewrite IH, is_bullet_line_app.
  destruct a as [|c' a'].
  - cbn [bullet_breaks ends_with_LF app andb].
    change (is_bullet_line []) with false. rewrite andb_false_r.
    destruct (c =? LF); cbn [andb]; destruct (is_bullet_line b); lia.
  - change (ends_with_LF (c :: c' :: a')) with (ends_with_LF (c' :: a')).
    lia.
Qed.

Lemma bullet_breaks_app_plain (a b : str) :
  is_bullet_line b = false ->
  bullet_breaks (a ++ b) = (bullet_breaks a + bullet_breaks b)%nat.
Proof.
  intros H. rewrite bullet_breaks_app, H, andb_false_r. lia.
Qed.

Lemma bullet_breaks_app_open (a b : str) :
  ends_with_LF a = false ->
  bullet_breaks (a ++ b) = (bullet_breaks a + bullet_breaks b)%nat.
Proof.
  intros H. rewrite bullet_breaks_app, H. cbn [andb]. lia.
Qed.

Lemma white_space_plain (w : str) :
  forallb isspace w = true ->
  bullet_breaks w = 0%nat /\ is_bullet_line w = false.
Proof.
  induction w as [|c w IH]; [split; reflexivity|].
  cbn [forallb]. intros H. apply andb_true_iff in H as [Hc Hw].
  destruct (IH Hw) as [Hb Hl]. split.
  - cbn [bullet_breaks]. rewrite Hl, andb_false_r, Hb. reflexivity.
  - change (is_bullet_line (c :: w)) with ((9679 =? c) && true).
    rewrite andb_true_r. apply N.eqb_neq. intros <-. discriminate Hc.
Qed.

Lemma lstrip_white (u : str) :
  exists w, u = w ++ lstrip u /\ forallb isspace w = true.
Proof.
  induction u as [|c u (w & E & Hw)]; [exists []; auto|].
  cbn [lstrip]. destruct (isspace c) eqn:Ec.
  - exists (c :: w). cbn [app forallb]. rewrite Ec, Hw, <- E. auto.
  - exists []. auto.
Qed.

Lemma rstrip_white (s : str) :
  exists w, s = rstrip s ++ w /\ forallb isspace w = true.
Proof.
  unfold rstrip. destruct (lstrip_white (List.rev s)) as (w & E & Hw).
  exists (List.rev w). split.
  - rewrite <- rev_app_distr, <- E, rev_involutive. reflexivity.
  - rewrite forallb_forall in *. intros x Hx. apply Hw, in_rev, Hx.
Qed.

Lemma bullet_breaks_rstrip (s : str) :
  bullet_breaks (rstrip s) = bullet_breaks s.
Proof.
  destruct (rstrip_white s) as (w & E & Hw).
  destruct (white_space_plain w Hw) as [Hb Hl].
  rewrite E at 2. rewrite bullet_breaks_app_plain, Hb by exact Hl. lia.
Qed.

(** ** The bullet lines of a combined message *)

Lemma status_annotation_breaks (f : File) (t : str) :
  is_bullet_line (status_annotation f ++ LF :: t) = false
  /\ bullet_breaks (status_annotation f ++ LF :: t)
     = bullet_breaks (LF :: t).
Proof.
  unfold status_annotation, _get_change_type.
  destruct (modified f), (deleted f), (moved f); split; reflexivity.
Qed.

Lemma bullet_line_breaks (act : bool) (f : File) (t : str) :
  bullet_breaks (bullet_line act f ++ LF :: t)
  = (bullet_breaks (content_filename f)
     + (if act then bullet_breaks (_get_content_type f) else 0)
     + bullet_breaks (LF :: t))%nat.
Proof.
  unfold bullet_line. rewrite <- !app_assoc.
  destruct (status_annotation_breaks f t) as [Hs Hb].
  rewrite (bullet_breaks_app_open (utf8 "● ")) by reflexivity.
  change (bullet_breaks (utf8 "● ")) with 0%nat.
  destruct act.
  - rewrite <- !app_assoc.
    rewrite (bullet_breaks_app_plain (content_filename f)) by reflexivity.
    rewrite (bullet_breaks_app_open (utf8 " (")) by reflexivity.
    rewrite (bullet_breaks_app_plain (_get_content_type f)) by reflexivity.
    rewrite (bullet_breaks_app_open (utf8 ")")) by reflexivity.
    rewrite Hb. change (bullet_breaks (utf8 " (")) with 0%nat.
    change (bullet_breaks (utf8 ")")) with 0%nat. lia.
  - cbn [app].
    rewrite (bullet_breaks_app_plain (content_filename f)) by exact Hs.
    rewrite Hb. lia.
Qed.

Lemma bullet_breaks_LF (x : str) :
  bullet_breaks (LF :: x)
  = ((if is_bullet_line x then 1 else 0) + bullet_breaks x)%nat.
Proof. reflexivity. Qed.

Lemma bullet_lines_breaks_sum (act : bool) (fs : list File) :
  bullet_breaks
    (LF :: concat (map (fun l => l ++ [LF]) (map (bullet_line act) fs)))
  = (List.length fs
     + list_sum
         (map (fun f =>
                 bullet_breaks (content_filename f)
                 + (if act then bullet_breaks (_get_content_type f) else 0))
            fs))%nat.
Proof.
  induction fs as [|f fs IH]; [reflexivity|].
  cbn [map concat]. rewrite <- app_assoc. cbn [app].
  rewrite bullet_breaks_LF.
  change (is_bullet_line (bullet_line act f ++ ?x)) with true.
  rewrite bullet_line_breaks, IH. unfold list_sum.
  cbn [List.length fold_right]. lia.
Qed.

(** The bullet lines of a combined message are as many as its files and
    the line breaks followed by a bullet in the names it shows. *)
Lemma combined_bullet_count (fs : list File) (cn kw : str) (e : option str)
    (act : bool) :
  bullet_lines (text (make_generic_combined_message fs cn kw e act))
  = (List.length fs + bullet_breaks cn
     + list_sum
         (map (fun f =>
                 bullet_breaks (content_filename f)
                 + (if act then bullet_breaks (_get_content_type f) else 0))
            fs))%nat.
Proof.
  rewrite bullet_lines_breaks, combined_text.
  change (_get_course_name_str cn) with (128216 :: 32 :: cn).
  cbn [app].
  destruct (rstrip_cons 128216
              (32 :: cn ++ LF
                 :: concat (map (fun l => l ++ [LF])
                              (map (bullet_line act) fs)))
              eq_refl) as (s' & w & E & _).
  rewrite E at 1. change (is_bullet_line (128216 :: s')) with false.
  rewrite bullet_breaks_rstrip.
  change (128216 :: 32 :: ?x) with (_get_course_name_str [] ++ x).
  rewrite (bullet_breaks_app_open (_get_course_name_str [])) by reflexivity.
  change (bullet_breaks (_get_course_name_str [])) with 0%nat.
  rewrite (bullet_breaks_app_plain cn) by reflexivity.
  rewrite bullet_lines_breaks_sum. lia.
Qed.

(** ** Every event is rendered once *)

Lemma combined_count (fs : list File) (cn kw e : str) (act : bool) :
  In e [utf8 "📝"; utf8 "📚"; utf8 "🗂️"] ->
  total_referenced [make_generic_combined_message fs cn kw (Some e) act]
  = (List.length fs + bullet_breaks cn
     + list_sum
         (map (fun f =>
                 bullet_breaks (content_filename f)
                 + (if act then bullet_breaks (_get_content_type f) else 0))
            fs))%nat.
Proof.
  intros He. unfold total_referenced; cbn [map list_sum fold_right].
  unfold referenced_events.
  rewrite (combined_is_combined _ _ _ _ _ He), combined_bullet_count. lia.
Qed.

Lemma Forall2_map_each {A B : Type} (P : A -> B -> Prop) (g : A -> B)
    (l : list A) :
  (forall x, P x (g x)) -> Forall2 P l (map g l).
Proof. intros H; induction l; constructor; auto. Qed.

Lemma category_rule_renders (cn cat : str) (b : list File)
    (g : list NtfyMessage) :
  In cat category_order -> category_rule cn cat b = Ok g ->
  renders_each cn (cat, b) g
  /\ total_referenced g = (List.length b + shown_breaks cn (cat, b))%nat.
Proof.
  intros Hcat. unfold category_rule, renders_each, shown_breaks.
  destruct b as [|f b']; [intros [= <-]; split; reflexivity|].
  set (b := f :: b') in *.
  unfold category_order in Hcat; cbn [In] in Hcat.
  unfold combined_category, event_message.
  repeat (destruct Hcat as [<- | Hcat]); [..|contradiction]; eval_keys;
    eval_keys; cbv iota.
  - intros [= <-]. split.
    + eexists. split; [reflexivity|]. split; [reflexivity|].
      apply combined_text_join.
    + unfold make_assign_combined_message. rewrite combined_count; [lia|].
      simpl; auto.
  - intros E. apply list_comp_Forall2 in E. split.
    + eapply Forall2_impl; [|exact E]. cbv beta. intros x m Hm.
      split; [exact Hm | eapply calendar_not_combined; exact Hm].
    + rewrite Nat.add_0_r. eapply single_events_total; [|exact E].
      intros x m Hm; eapply calendar_not_combined; exact Hm.
  - intros [= <-]. split.
    + eexists. split; [reflexivity|]. split; [reflexivity|].
      apply combined_text_join.
    + unfold make_resource_combined_message.
      rewrite combined_count; [|simpl; auto].
      rewrite (map_ext _ (fun f => bullet_breaks (content_filename f)));
        [lia | intros; lia].
  - intros [= <-]. split.
    + apply (Forall2_map_each _ (fun x => make_forum_message x cn) b).
      intros x. split; reflexivity.
    + rewrite Nat.add_0_r.
      apply (single_events_total (fun x m => m = make_forum_message x cn)).
      * intros x m ->; apply forum_not_combined.
      * exact (Forall2_map_graph (fun x => make_forum_message x cn) b).
  - intros [= <-]. split.
    + eexists. split; [reflexivity|]. split; [reflexivity|].
      apply combined_text_join.
    + unfold make_resource_combined_message.
      rewrite combined_count; [|simpl; auto].
      rewrite (map_ext _ (fun f => bullet_breaks (content_filename f)));
        [lia | intros; lia].
  - intros [= <-]. split.
    + apply (Forall2_map_each _ (fun x => make_quiz_message x cn) b).
      intros x. split; reflexivity.
    + rewrite Nat.add_0_r.
      apply (single_events_total (fun x m => m = make_quiz_message x cn)).
      * intros x m ->; apply quiz_not_combined.
      * exact (Forall2_map_graph (fun x => make_quiz_message x cn) b).
  - intros [= <-]. split.
    + eexists. split; [reflexivity|]. split; [reflexivity|].
      apply combined_text_join.
    + rewrite combined_count; [|simpl; auto].
      rewrite (map_ext _ (fun f => bullet_breaks (content_filename f)));
        [lia | intros; lia].
Qed.

Lemma category_order_NoDup : NoDup category_order.
Proof.
  unfold category_order.
  repeat (constructor;
          [cbn [In]; intros H;
           repeat (destruct H as [H | H]; [vm_compute in H; discriminate H|]);
           exact H|]).
  constructor.
Qed.

(** An event added to the one list of its key is added once. *)
Lemma concat_insert (keys : list str) (g : str -> list File) (k : str)
    (f : File) :
  NoDup keys -> In k keys ->
  Permutation
    (concat (map (fun cat => if str_eqb k cat then f :: g cat else g cat)
               keys))
    (f :: concat (map g keys)).
Proof.
  induction 1 as [|a keys Ha Hnd IH]; [contradiction|].
  intros Hin. cbn [map concat].
  destruct (str_eqb k a) eqn:E.
  - apply str_eqb_eq in E; subst a. cbn [app]. constructor.
    apply Permutation_app_head.
    rewrite (map_ext_in _ g); [reflexivity|].
    intros cat Hcat. destruct (str_eqb k cat) eqn:E'; [|reflexivity].
    apply str_eqb_eq in E'; subst cat. contradiction.
  - destruct Hin as [-> | Hin]; [rewrite str_eqb_refl in E; discriminate|].
    etransitivity; [apply Permutation_app_head, IH, Hin|].
    symmetry. apply Permutation_middle.
Qed.

(** Every event of a course is in the bucket of exactly one category. *)
Lemma buckets_permutation (c : Course) :
  Permutation (concat (map snd (course_buckets c))) (files c).
Proof.
  unfold course_buckets. rewrite aggregator_buckets, map_map. cbn [snd].
  induction (files c) as [|f fs IH]; [reflexivity|].
  etransitivity; [|constructor; exact IH].
  rewrite (map_ext _ (fun cat =>
      if str_eqb (classify (module_modname f)) cat
      then f :: bucket cat fs else bucket cat fs)).
  - apply concat_insert;
      [apply category_order_NoDup | apply classify_in_order].
  - intros cat. unfold bucket; cbn [filter].
    destruct (str_eqb _ cat); reflexivity.
Qed.

Lemma concat_map_r_groups {A B : Type} (f : A -> result (list B))
    (l : list A) (zs : list B) :
  concat_map_r f l = Ok zs ->
  exists groups, zs = concat groups /\ Forall2 (fun x g => f x = Ok g) l groups.
Proof.
  revert zs; induction l as [|x l IH]; intros zs; cbn [concat_map_r].
  - intros [= <-]. exists []. split; [reflexivity | constructor].
  - destruct (f x) as [ys|e] eqn:Ex; cbn [bind]; [|discriminate].
    destruct (concat_map_r f l) as [zs'|e]; cbn [bind]; [|discriminate].
    intros [= <-]. destruct (IH zs' eq_refl) as (groups & -> & H).
    exists (ys :: groups). split; [reflexivity | constructor; auto].
Qed.

Lemma Forall2_map_l {A B C : Type} (P : B -> C -> Prop) (h : A -> B)
    (l : list A) (l' : list C) :
  Forall2 (fun x y => P (h x) y) l l' -> Forall2 P (map h l) l'.
Proof. induction 1; constructor; auto. Qed.

Lemma Forall2_impl_In {A B : Type} (P Q : A -> B -> Prop) (l : list A)
    (l' : list B) :
  (forall x y, In x l -> P x y -> Q x y) -> Forall2 P l l' -> Forall2 Q l l'.
Proof.
  intros H F; induction F as [|x y l l' Hxy _ IH]; constructor.
  - apply H; [left; reflexivity | exact Hxy].
  - apply IH. intros a b Ha. apply H. right; exact Ha.
Qed.

(** The messages of a course, bucket by bucket. *)
Lemma course_groups (c : Course) (p : list NtfyMessage) :
  concat_map_r
    (fun cat => category_rule (display_name c) cat (bucket cat (files c)))
    category_order = Ok p ->
  exists groups,
    p = concat groups
    /\ Forall2
         (fun item g =>
            renders_each (display_name c) item g
            /\ total_referenced g
               = (List.length (snd item)
                  + shown_breaks (display_name c) item)%nat)
         (course_buckets c) groups.
Proof.
  intros Hp. apply concat_map_r_groups in Hp as (groups & -> & H).
  exists groups. split; [reflexivity|].
  unfold course_buckets. rewrite aggregator_buckets.
  apply Forall2_map_l. eapply Forall2_impl_In; [|exact H]. cbv beta.
  intros cat g Hcat Hg. apply category_rule_renders; assumption.
Qed.

Lemma course_count (c : Course) (p : list NtfyMessage) :
  concat_map_r
    (fun cat => category_rule (display_name c) cat (bucket cat (files c)))
    category_order = Ok p ->
  total_referenced p
  = (List.length (files c)
     + list_sum (map (shown_breaks (display_name c)) (course_buckets c)))%nat.
Proof.
  intros Hp. unfold course_buckets. rewrite aggregator_buckets, map_map.
  rewrite <- (bucket_lengths (files c)), <- list_sum_map_add.
  apply (concat_map_r_total _ _ _ (fun cat q Hcat Hq =>
           proj2 (category_rule_renders _ cat _ q Hcat Hq)) p Hp).
Qed.

Lemma batch_count (changes : list Course) (msgs : list NtfyMessage) :
  create_full_moodle_diff_messages changes = Ok msgs ->
  total_referenced msgs = (total_input changes + batch_breaks changes)%nat.
Proof.
  rewrite builder_rules. intros Hm.
  unfold total_input, batch_breaks. rewrite <- list_sum_map_add.
  apply (concat_map_r_total _ _ _ (fun c p _ Hp => course_count c p Hp)
           msgs Hm).
Qed.

Lemma batch_groups (changes : list Course) (msgs : list NtfyMessage) :
  create_full_moodle_diff_messages changes = Ok msgs ->
  exists groups : list (list (list NtfyMessage)),
    msgs = concat (map (@concat NtfyMessage) groups)
    /\ Forall2
         (fun c course_groups =>
            Forall2
              (fun item g =>
                 renders_each (display_name c) item g
                 /\ total_referenced g
                    = (List.length (snd item)
                       + shown_breaks (display_name c) item)%nat)
              (course_buckets c) course_groups)
         changes groups.
Proof.
  rewrite builder_rules. intros Hm.
  apply concat_map_r_groups in Hm as (ps & -> & H).
  induction H as [|c p cs ps Hp _ (groups & E & IH)].
  - exists []. split; [reflexivity | constructor].
  - destruct (course_groups c p Hp) as (gs & -> & Hgs).
    exists (gs :: groups). cbn [map concat]. rewrite E.
    split; [reflexivity | constructor; assumption].
Qed.

(** ** Dates and times *)

Lemma in_range_digit (c : char) :
  in_range "0" "9" c = true <-> 48 <= c <= 57.
Proof.
  unfold in_range; change (ch "0") with 48; change (ch "9") with 57.
  rewrite andb_true_iff, !N.leb_le; tauto.
Qed.

Lemma pad2_digits (n : N) :
  n < 100 -> forallb (in_range "0" "9") (pad2 n) = true.
Proof.
  intros H; unfold pad2; cbn [forallb].
  rewrite !andb_true_iff, !in_range_digit. repeat split; div_lia.
Qed.

Lemma pad2_not_space (n : N) (r : str) :
  n < 100 -> lstrip (pad2 n ++ r) = pad2 n ++ r.
Proof.
  intros H; unfold pad2; cbn [app lstrip].
  replace (isspace (48 + n / 10)) with false; [reflexivity|].
  symmetry; unfold isspace.
  repeat (apply orb_false_intro);
    rewrite ?andb_false_iff, ?N.leb_gt, ?N.eqb_neq; div_lia.
Qed.

Lemma replace_pad2 (n : N) :
  n < 100 -> replace (ch "_") (ch ":") (pad2 n) = pad2 n.
Proof.
  intros H; unfold replace, pad2; cbn [map]. change (ch "_") with 95.
  assert (E1 : (48 + n / 10 =? 95) = false) by (apply N.eqb_neq; div_lia).
  assert (E2 : (48 + n mod 10 =? 95) = false) by (apply N.eqb_neq; div_lia).
  rewrite E1, E2; reflexivity.
Qed.

Lemma replace_time_token (H M : N) :
  H < 100 -> M < 100 ->
  replace (ch "_") (ch ":") (time_token H M) = pad2 H ++ utf8 ":" ++ pad2 M.
Proof.
  intros HH HM; unfold time_token.
  assert (A : forall a b, replace (ch "_") (ch ":") (a ++ b)
              = replace (ch "_") (ch ":") a ++ replace (ch "_") (ch ":") b)
    by (intros; apply map_app).
  rewrite !A, !replace_pad2 by assumption. reflexivity.
Qed.

Lemma decimal_value_ascii (n : N) :
  n < 10 -> decimal_value (48 + n) = Some n.
Proof. intros H; small_cases n; try lia; reflexivity. Qed.

Lemma re_Y_pad4 (Y : N) (r : str) :
  Y <= 9999 -> re_Y (pad4 Y ++ r) = Some (Y, r).
Proof.
  intros H; unfold re_Y, pad4, digit; cbn [app].
  rewrite !decimal_value_ascii by div_lia.
  do 2 f_equal. div_lia.
Qed.

Lemma re_m_pad2 (m : N) (r : str) :
  1 <= m <= 12 -> re_m (pad2 m ++ r) = Some (m, r).
Proof. intros H; small_cases m; try lia; reflexivity. Qed.

Lemma re_d_pad2 (d : N) (r : str) :
  1 <= d <= 31 -> re_d (pad2 d ++ r) = Some (d, r).
Proof. intros H; small_cases d; try lia; reflexivity. Qed.

Lemma re_H_pad2 (H : N) (r : str) :
  H <= 23 -> re_H (pad2 H ++ r) = Some (H, r).
Proof. intros HH; small_cases H; try lia; reflexivity. Qed.

Lemma re_M_pad2 (M : N) (r : str) :
  M <= 59 -> re_M (pad2 M ++ r) = Some (M, r).
Proof. intros HM; small_cases M; try lia; reflexivity. Qed.

Lemma days_in_month_le (Y m : N) : days_in_month Y m <= 31.
Proof.
  unfold days_in_month.
  destruct (m =? 2); [destruct (is_leap Y); lia|].
  destruct (_ || _); lia.
Qed.

Lemma match_tokens (Y m d H M : N) :
  Y <= 9999 -> 1 <= m <= 12 -> 1 <= d <= 31 -> H <= 23 -> M <= 59 ->
  match_Ymd_HM
    (date_token Y m d ++ utf8 " " ++ pad2 H ++ utf8 ":" ++ pad2 M)
  = Some (mk_datetime Y m d H M, []).
Proof.
  intros HY Hm Hd HH HM. unfold match_Ymd_HM, date_token.
  rewrite <- !app_assoc, re_Y_pad4 by assumption. cbn [obind].
  change (utf8 "." ++ ?x) with (46 :: x).
  change (lit "." (46 :: ?x)) with (Some x). cbn [obind].
  rewrite re_m_pad2 by assumption. cbn [obind].
  change (utf8 "." ++ ?x) with (46 :: x).
  change (lit "." (46 :: ?x)) with (Some x). cbn [obind].
  rewrite re_d_pad2 by assumption. cbn [obind].
  change (utf8 " " ++ ?x) with (32 :: x).
  change (spaces (32 :: ?x)) with (Some (lstrip x)). cbn [obind].
  rewrite pad2_not_space by lia.
  rewrite re_H_pad2 by assumption. cbn [obind].
  change (utf8 ":" ++ ?x) with (58 :: x).
  change (lit ":" (58 :: ?x)) with (Some x). cbn [obind].
  rewrite <- (app_nil_r (pad2 M)), re_M_pad2 by assumption. reflexivity.
Qed.

Lemma hour12_le (H : N) : 1 <= hour12 H <= 12.
Proof.
  unfold hour12. destruct (H mod 12 =? 0) eqn:E; [lia|].
  apply N.eqb_neq in E. div_lia.
Qed.

(** On a date and a time that exist, written with padding, the conversion
    gives the time on the 12-hour clock, then the day, the month and the
    two last digits of the year. *)
Lemma iso_to_time_dmy_tokens (Y m d H M : N) :
  1 <= Y <= 9999 -> 1 <= m <= 12 -> 1 <= d <= days_in_month Y m ->
  H <= 23 -> M <= 59 ->
  iso_to_time_dmy (date_token Y m d) (time_token H M)
  = Ok (pad2 (hour12 H) ++ utf8 ":" ++ pad2 M ++ utf8 " "
        ++ (if H <? 12 then utf8 "AM" else utf8 "PM") ++ utf8 " "
        ++ pad2 d ++ utf8 "." ++ pad2 m ++ utf8 "." ++ pad2 (Y mod 100)).
Proof.
  intros HY Hm Hd HH HM. pose proof (days_in_month_le Y m) as Hdim.
  unfold iso_to_time_dmy. rewrite replace_time_token by lia.
  unfold strptime_Ymd_HM. rewrite match_tokens by lia. cbn [year month day].
  replace (Y <? 1) with false by (symmetry; apply N.ltb_ge; lia).
  replace (days_in_month Y m <? d) with false
    by (symmetry; apply N.ltb_ge; lia).
  reflexivity.
Qed.

Lemma display_matches (h M d m y : N) (pm : bool) :
  h < 100 -> M < 100 -> d < 100 -> m < 100 -> y < 100 ->
  matches_display
    (pad2 h ++ utf8 ":" ++ pad2 M ++ utf8 " "
     ++ (if pm then utf8 "AM" else utf8 "PM") ++ utf8 " "
     ++ pad2 d ++ utf8 "." ++ pad2 m ++ utf8 "." ++ pad2 y) = true.
Proof.
  intros Hh HM Hd Hm Hy.
  pose proof (pad2_digits h Hh) as Dh. pose proof (pad2_digits M HM) as DM.
  pose proof (pad2_digits d Hd) as Dd. pose proof (pad2_digits m Hm) as Dm.
  pose proof (pad2_digits y Hy) as Dy.
  unfold pad2 in *. cbn [forallb] in *.
  repeat match goal with
  | H : _ && _ = true |- _ => apply andb_true_iff in H as [? ?]
  end.
  set (h1 := 48 + h / 10) in *. set (h2 := 48 + h mod 10) in *.
  set (M1 := 48 + M / 10) in *. set (M2 := 48 + M mod 10) in *.
  set (d1 := 48 + d / 10) in *. set (d2 := 48 + d mod 10) in *.
  set (m1 := 48 + m / 10) in *. set (m2 := 48 + m mod 10) in *.
  set (y1 := 48 + y / 10) in *. set (y2 := 48 + y mod 10) in *.
  destruct pm;
    [ change (matches_display
        [h1; h2; 58; M1; M2; 32; 65; 77; 32; d1; d2; 46; m1; m2; 46; y1; y2]
        = true)
    | change (matches_display
        [h1; h2; 58; M1; M2; 32; 80; 77; 32; d1; d2; 46; m1; m2; 46; y1; y2]
        = true) ];
    unfold matches_display; cbn [forallb];
    repeat match goal with
    | H : in_range "0" "9" ?c = true |- _ => rewrite H; clear H
    end; reflexivity.
Qed.

(** ** Splitting the name of a calendar event *)

Lemma split_length (sep : char) (s : str) (k : nat) :
  List.length (split sep k s) = S (Nat.min k (count_char sep s)).
Proof.
  revert k; induction s as [|c s IH]; intros k.
  - simpl. rewrite Nat.min_0_r; reflexivity.
  - unfold count_char in *. cbn [split filter]. rewrite (N.eqb_sym sep c).
    destruct (c =? sep).
    + destruct k as [|k]; [reflexivity|]. cbn [List.length].
      rewrite IH. reflexivity.
    + specialize (IH k).
      destruct (split sep k s) as [|fld flds]; [discriminate IH | exact IH].
Qed.

Lemma split_0 (sep : char) (s : str) : split sep 0 s = [s].
Proof.
  induction s as [|c s IH]; [reflexivity|]. cbn [split].
  destruct (c =? sep); [reflexivity | rewrite IH; reflexivity].
Qed.

Lemma split_app_sep (sep : char) (k : nat) (a r : str) :
  contains sep a = false ->
  split sep (S k) (a ++ sep :: r) = a :: split sep k r.
Proof.
  induction a as [|c a IH]; intros H.
  - cbn [app split]. rewrite N.eqb_refl; reflexivity.
  - apply contains_cons in H as [Hc Ha]. cbn [app split].
    rewrite Hc, (IH Ha); reflexivity.
Qed.

Lemma calendar_few_spaces (f : File) (cn : str) :
  (count_char (ch " ") (content_filename f) < 2)%nat ->
  make_calendar_message f cn
  = Raise (ValueError (not_enough_values_to_unpack 3
             (S (count_char (ch " ") (content_filename f))))).
Proof.
  intros H. unfold make_calendar_message.
  pose proof (split_length (ch " ") (content_filename f) 2) as L.
  rewrite Nat.min_r in L by lia.
  destruct (split _ 2 _) as [|a [|b [|c l]]]; cbn [List.length] in L;
    try (rewrite <- L; reflexivity); lia.
Qed.

Lemma calendar_two_spaces (g : File) (cn a b name : str) :
  content_filename g = a ++ utf8 " " ++ b ++ utf8 " " ++ name ->
  contains (ch " ") a = false -> contains (ch " ") b = false ->
  make_calendar_message g cn
  = (t <- iso_to_time_dmy a b ;;
     Ok (mk_NtfyMessage (utf8 "⏰ " ++ name ++ utf8 " @ " ++ t)
           (_get_course_name_str cn) (content_fileurl g))).
Proof.
  intros E Ha Hb. unfold make_calendar_message. rewrite E.
  change (utf8 " " ++ ?x) with (ch " " :: x).
  rewrite (split_app_sep _ _ _ _ Ha).
  change (utf8 " " ++ ?x) with (ch " " :: x).
  rewrite (split_app_sep _ _ _ _ Hb), split_0.
  reflexivity.
Qed.

(** ** Exceptions of the builder *)

Lemma iso_to_time_dmy_raises (a b : str) (e : exn) :
  iso_to_time_dmy a b = Raise e -> exists w, e = ValueError w.
Proof.
  unfold iso_to_time_dmy, strptime_Ymd_HM.
  destruct (match_Ymd_HM _) as [[dt [|c r]]|]; simpl.
  - destruct (year dt <? 1); simpl; [intros [= <-]; eauto|].
    destruct (_ <? day dt); simpl; [intros [= <-]; eauto | discriminate].
  - intros [= <-]; eauto.
  - intros [= <-]; eauto.
Qed.

Lemma make_calendar_message_raises (f : File) (cn : str) (e : exn) :
  make_calendar_message f cn = Raise e -> exists w, e = ValueError w.
Proof.
  unfold make_calendar_message.
  destruct (split _ 2 _) as [|a [|b [|c [|d l]]]];
    try (destruct (_ <? _)%nat; intros [= <-]; eauto).
  destruct (iso_to_time_dmy a b) as [t|e'] eqn:E; simpl; [discriminate|].
  intros [= <-]. eapply iso_to_time_dmy_raises; exact E.
Qed.

Lemma list_comp_raises {A B : Type} (f : A -> result B) (l : list A)
    (e : exn) :
  list_comp f l = Raise e -> exists x, In x l /\ f x = Raise e.
Proof.
  induction l as [|x l IH]; simpl; [discriminate|].
  destruct (f x) as [y|e'] eqn:Ex; simpl.
  - destruct (list_comp f l) as [ys|e'']; simpl; [discriminate|].
    intros [= <-]. destruct (IH eq_refl) as (z & Hz & Ez); eauto.
  - intros [= <-]; eauto.
Qed.

Lemma concat_map_r_raises {A B : Type} (f : A -> result (list B))
    (l : list A) (e : exn) :
  concat_map_r f l = Raise e -> exists x, In x l /\ f x = Raise e.
Proof.
  induction l as [|x l IH]; simpl; [discriminate|].
  destruct (f x) as [y|e'] eqn:Ex; simpl.
  - destruct (concat_map_r f l) as [ys|e'']; simpl; [discriminate|].
    intros [= <-]. destruct (IH eq_refl) as (z & Hz & Ez); eauto.
  - intros [= <-]; eauto.
Qed.

Lemma handle_bucket_raises (cn cat : str) (b : list File) (e : exn) :
  In cat category_order ->
  handle_bucket cn (cat, b) [] = Raise e -> exists w, e = ValueError w.
Proof.
  intros Hcat. unfold handle_bucket.
  destruct b as [|f b']; [discriminate|].
  set (b := f :: b') in *.
  unfold category_order in Hcat; cbn [In] in Hcat.
  repeat (destruct Hcat as [<- | Hcat]); [..|contradiction]; eval_keys;
    cbv iota; rewrite ?list_comp_total; cbn [bind]; try discriminate.
  destruct (list_comp _ b) as [ms|e'] eqn:E; cbn [bind]; [discriminate|].
  intros [= <-]. apply list_comp_raises in E as (x & _ & E).
  eapply make_calendar_message_raises; exact E.
Qed.

Lemma builder_raises (changes : list Course) (e : exn) :
  create_full_moodle_diff_messages changes = Raise e ->
  exists w, e = ValueError w.
Proof.
  rewrite builder_ordered. unfold ordered_messages.
  intros H. apply concat_map_r_raises in H as (c & _ & H).
  apply concat_map_r_raises in H as (cat & Hcat & H).
  eapply handle_bucket_raises; [exact Hcat | exact H].
Qed.

Lemma unknown_key_raises (cn k : str) (f : File) (fs : list File)
    (msgs : list NtfyMessage) :
  has_rule k = false ->
  handle_bucket cn (k, f :: fs) msgs = Raise (AssertionError unprocessed_msg).
Proof.
  unfold has_rule, category_order; cbn [existsb]. intros H.
  repeat (apply orb_false_elim in H as [?E H]).
  unfold handle_bucket; cbn [existsb].
  repeat match goal with
  | E : str_eqb k _ = false |- _ => rewrite E; clear E
  end.
  reflexivity.
Qed.

Lemma for_each_raises_at {A S : Type} (body : A -> S -> result S)
    (l : list A) (x : A) (e : exn) :
  In x l -> (forall s, body x s = Raise e) ->
  forall s, exists e', for_each body l s = Raise e'.
Proof.
  intros Hin Hx; induction l as [|y l IH]; intros s; [contradiction|].
  simpl. destruct Hin as [-> | Hin].
  - rewrite Hx; simpl; eauto.
  - destruct (body y s) as [s'|e']; simpl; eauto.
Qed.

(** * The claims *)

(** ** Sanity checks of the embedding *)

Example utf8_bullet : utf8 "● " = [9679; 32].
Proof. reflexivity. Qed.

Example utf8_misc_marker : utf8 "🗂️" = [128450; 65039].
Proof. reflexivity. Qed.

Example split_at_most_twice :
  split (ch " ") 2 (utf8 "a b c d") = [utf8 "a"; utf8 "b"; utf8 "c d"].
Proof. reflexivity. Qed.

Example split_keeps_empty_fields :
  split (ch " ") 2 (utf8 "a  b") = [utf8 "a"; empty; utf8 "b"].
Proof. reflexivity. Qed.

Example rstrip_line_break : rstrip (utf8 "a b " ++ [LF]) = utf8 "a b".
Proof. reflexivity. Qed.

Example str_of_nat_120 : str_of_nat 120 = utf8 "120".
Proof. reflexivity. Qed.

Example remove_until_first_space_ex :
  remove_until_first_space (utf8 "/Week 1/News forum") = utf8 "1/News forum".
Proof. reflexivity. Qed.

Example february_29 :
  iso_to_time_dmy (utf8 "2023.02.29") (utf8 "10_00")
  = Raise (ValueError day_is_out_of_range_for_month).
Proof. reflexivity. Qed.

Example hour_24 :
  iso_to_time_dmy (utf8 "2024.02.29") (utf8 "24_00")
  = Raise (ValueError time_data_does_not_match_format).
Proof. reflexivity. Qed.

Example midnight :
  iso_to_time_dmy (utf8 "2024.02.29") (utf8 "00_05")
  = Ok (utf8 "12:05 AM 29.02.24").
Proof. reflexivity. Qed.

(** Decimal digits other than the ASCII ones are read as well. *)
Example arabic_indic_day :
  iso_to_time_dmy (utf8 "2024.09.2٣") (utf8 "14_35")
  = Ok (utf8 "02:35 PM 23.09.24").
Proof. reflexivity. Qed.

Example fullwidth_hour :
  make_calendar_message
    (file_of "2024.09.23 1４_35 Exam" "event" "calendar" false false false)
    (utf8 "C")
  = Ok (mk_NtfyMessage (utf8 "⏰ Exam @ 02:35 PM 23.09.24") (utf8 "📘 C")
          None).
Proof. reflexivity. Qed.

(** A digit is not accepted where the pattern names ASCII digits. *)
Example arabic_indic_month :
  iso_to_time_dmy (utf8 "2024.0٩.23") (utf8 "14_35")
  = Raise (ValueError time_data_does_not_match_format).
Proof. reflexivity. Qed.

(** The index [1] in [remove_until_first_space] is always in range. *)
Lemma remove_until_first_space_index (s : str) :
  contains (ch " ") s = true ->
  List.length (split (ch " ") 1 s) = 2%nat.
Proof.
  intros H. rewrite split_length.
  destruct (count_char (ch " ") s) as [|n] eqn:E; [|reflexivity].
  exfalso. unfold contains in H. apply existsb_exists in H as (x & Hx & Ex).
  unfold count_char in E. apply length_zero_iff_nil in E.
  assert (Hf : In x (filter (N.eqb (ch " ")) s)) by (apply filter_In; auto).
  rewrite E in Hf; exact Hf.
Qed.

(** [add] always finds its key: the catch-all is a key of the map. *)
Lemma aggregator_has_misc (fs : list File) :
  dict_mem (utf8 "misc")
    (map_ (fold_left add fs (FileAggregatorByMod_init default_mod_categories)))
  = true.
Proof. rewrite aggregator_buckets; reflexivity. Qed.

(** ** C1 *)

(** C1. The course "Algebra I" with the new resource files "Syllabus.pdf"
    and "Notes.pdf" and the modified assign file "HW1.pdf" of content type
    "assign_file" gives exactly two messages: the combined message of the
    assignment, "📝 1 assignment file updates", whose bullet line is
    "● HW1.pdf (Assigment File) (modified)", and the combined message of
    the resources, "📚 2 file updates", with one bullet line for each of
    the two files.  Paths, links, the content types of the resources and
    the other two flags of the assignment are arbitrary. *)
Theorem algebra_scenario (p1 p2 p3 t1 t2 : str) (u1 u2 u3 : option str)
    (d v : bool) :
  create_full_moodle_diff_messages
    [ mk_Course (utf8 "Algebra I") None
        [ mk_File (utf8 "Syllabus.pdf") p1 u1 t1 (utf8 "resource")
            false false false;
          mk_File (utf8 "Notes.pdf") p2 u2 t2 (utf8 "resource")
            false false false;
          mk_File (utf8 "HW1.pdf") p3 u3 (utf8 "assign_file") (utf8 "assign")
            true d v ] ]
  = Ok [ mk_NtfyMessage (utf8 "📝 1 assignment file updates")
           (join_lines [ utf8 "📘 Algebra I";
                         utf8 "● HW1.pdf (Assigment File) (modified)" ])
           None;
         mk_NtfyMessage (utf8 "📚 2 file updates")
           (join_lines [ utf8 "📘 Algebra I"; utf8 "● Syllabus.pdf";
                         utf8 "● Notes.pdf" ])
           None ]
  /\ bullet_lines (join_lines [ utf8 "📘 Algebra I"; utf8 "● Syllabus.pdf";
                                utf8 "● Notes.pdf" ]) = 2%nat
  /\ bullet_lines (join_lines [ utf8 "📘 Algebra I";
                                utf8 "● HW1.pdf (Assigment File) (modified)" ])
     = 1%nat.
Proof. repeat split; vm_compute; reflexivity. Qed.

(** ** C2 *)



(** ** C3 *)

(** C3. For every date that exists (year 1 to 9999) written [YYYY.MM.DD]
    and every time of the day written [HH_MM], [iso_to_time_dmy] returns
    the time on the 12-hour clock with AM or PM, then day, month and the
    last two digits of the year, every field on two digits: a string of
    the pattern [^\d{2}:\d{2} (AM|PM) \d{2}\.\d{2}\.\d{2}$]. In particular
    ("2024.09.23", "14_35") gives "02:35 PM 23.09.24". *)
Theorem date_time_display (Y m d H M : N) :
  1 <= Y <= 9999 -> 1 <= m <= 12 -> 1 <= d <= days_in_month Y m ->
  H <= 23 -> M <= 59 ->
  exists out,
    iso_to_time_dmy (date_token Y m d) (time_token H M) = Ok out
    /\ out = pad2 (hour12 H) ++ utf8 ":" ++ pad2 M ++ utf8 " "
             ++ (if H <? 12 then utf8 "AM" else utf8 "PM") ++ utf8 " "
             ++ pad2 d ++ utf8 "." ++ pad2 m ++ utf8 "." ++ pad2 (Y mod 100)
    /\ matches_display out = true
    /\ iso_to_time_dmy (utf8 "2024.09.23") (utf8 "14_35")
       = Ok (utf8 "02:35 PM 23.09.24").
Proof.
  intros HY Hm Hd HH HM. eexists. split; [|split; [reflexivity|split]].
  - apply iso_to_time_dmy_tokens; assumption.
  - pose proof (hour12_le H). pose proof (days_in_month_le Y m).
    apply display_matches; try lia. apply N.mod_lt; lia.
  - reflexivity.
Qed.

Lemma date_time_display_witness :
  exists out,
    iso_to_time_dmy (date_token 2024 9 23) (time_token 14 35) = Ok out
    /\ out = pad2 (hour12 14) ++ utf8 ":" ++ pad2 35 ++ utf8 " "
             ++ (if 14 <? 12 then utf8 "AM" else utf8 "PM") ++ utf8 " "
             ++ pad2 23 ++ utf8 "." ++ pad2 9 ++ utf8 "."
             ++ pad2 (2024 mod 100)
    /\ matches_display out = true
    /\ iso_to_time_dmy (utf8 "2024.09.23") (utf8 "14_35")
       = Ok (utf8 "02:35 PM 23.09.24").
Proof.
  apply (date_time_display 2024 9 23 14 35);
    vm_compute; repeat split; discriminate.
Defined.

(** ** C4 *)

(** C4, as the spec states it, fails: the name "2024.09.23 14_35 " has two
    tokens separated by white space, and the event is rendered all the
    same, with an empty event name. *)
Lemma calendar_tokens_counterexample :
  (List.length (tokens (content_filename unnamed_event)) < 3)%nat
  /\ make_calendar_message unnamed_event (utf8 "C")
     = Ok (mk_NtfyMessage (utf8 "⏰  @ 02:35 PM 23.09.24") (utf8 "📘 C") None).
Proof. split; [vm_compute; lia | vm_compute; reflexivity]. Qed.

(** C4, amended. The calendar renderer raises the [ValueError] of the
    unpacking (the ParseError of the spec) whenever the file name holds
    fewer than two spaces, "onlyonetoken" for one; a name [a b name], cut
    at its first two spaces, is rendered under the title
    [⏰ name @ time], whatever spaces [name] holds, so that
    "2024.09.23 14_35 Midterm Exam" gives
    "⏰ Midterm Exam @ 02:35 PM 23.09.24". *)
Theorem calendar_message_parsing (f g : File) (cn a b name : str) :
  (count_char (ch " ") (content_filename f) < 2)%nat ->
  content_filename g = a ++ utf8 " " ++ b ++ utf8 " " ++ name ->
  contains (ch " ") a = false -> contains (ch " ") b = false ->
  make_calendar_message f cn
  = Raise (ValueError (not_enough_values_to_unpack 3
             (S (count_char (ch " ") (content_filename f)))))
  /\ make_calendar_message g cn
     = (t <- iso_to_time_dmy a b ;;
        Ok (mk_NtfyMessage (utf8 "⏰ " ++ name ++ utf8 " @ " ++ t)
              (_get_course_name_str cn) (content_fileurl g)))
  /\ make_calendar_message (with_filename f (utf8 "onlyonetoken")) cn
     = Raise (ValueError (not_enough_values_to_unpack 3 1))
  /\ make_calendar_message
       (with_filename g (utf8 "2024.09.23 14_35 Midterm Exam")) cn
     = Ok (mk_NtfyMessage (utf8 "⏰ Midterm Exam @ 02:35 PM 23.09.24")
             (_get_course_name_str cn) (content_fileurl g)).
Proof.
  intros Hf Hg Ha Hb. split; [|split; [|split]].
  - apply calendar_few_spaces, Hf.
  - apply calendar_two_spaces; assumption.
  - reflexivity.
  - reflexivity.
Qed.

Lemma calendar_message_parsing_witness :
  make_calendar_message one_token_event (utf8 "C")
  = Raise (ValueError (not_enough_values_to_unpack 3
             (S (count_char (ch " ") (content_filename one_token_event)))))
  /\ make_calendar_message midterm_event (utf8 "C")
     = (t <- iso_to_time_dmy (utf8 "2024.09.23") (utf8 "14_35") ;;
        Ok (mk_NtfyMessage (utf8 "⏰ " ++ utf8 "Midterm Exam" ++ utf8 " @ " ++ t)
              (_get_course_name_str (utf8 "C")) (content_fileurl midterm_event)))
  /\ make_calendar_message
       (with_filename one_token_event (utf8 "onlyonetoken")) (utf8 "C")
     = Raise (ValueError (not_enough_values_to_unpack 3 1))
  /\ make_calendar_message
       (with_filename midterm_event (utf8 "2024.09.23 14_35 Midterm Exam"))
       (utf8 "C")
     = Ok (mk_NtfyMessage (utf8 "⏰ Midterm Exam @ 02:35 PM 23.09.24")
             (_get_course_name_str (utf8 "C")) (content_fileurl midterm_event)).
Proof.
  apply (calendar_message_parsing one_token_event midterm_event (utf8 "C")
           (utf8 "2024.09.23") (utf8 "14_35") (utf8 "Midterm Exam"));
    vm_compute; try reflexivity; lia.
Defined.

(** ** C5 *)

(** C5. The change type of a file is "modified" when [modified] is set,
    whatever the other flags; else "deleted" when [deleted] is set; else
    "moved" when [moved] is set; else "new". The status string is the
    change type, but empty for "new"; a bullet line of a combined message
    ends with the status in brackets when a flag is set, and carries no
    annotation when none is. *)
Theorem change_status_priority (n p t mn text : str) (u : option str)
    (d v act : bool) :
  let file := mk_File n p u t mn in
  _get_change_type (file true d v) = utf8 "modified"
  /\ _get_change_type (file false true v) = utf8 "deleted"
  /\ _get_change_type (file false false true) = utf8 "moved"
  /\ _get_change_type (file false false false) = utf8 "new"
  /\ _get_status_str (file true d v) = utf8 "modified"
  /\ _get_status_str (file false true v) = utf8 "deleted"
  /\ _get_status_str (file false false true) = utf8 "moved"
  /\ _get_status_str (file false false false) = empty
  /\ add_file_line act text (file false false false)
     = text ++ utf8 "● " ++ n
       ++ (if act then utf8 " (" ++ _get_content_type (file false false false)
                       ++ utf8 ")" else empty)
       ++ [LF]
  /\ add_file_line act text (file true d v)
     = text ++ utf8 "● " ++ n
       ++ (if act then utf8 " (" ++ _get_content_type (file true d v)
                       ++ utf8 ")" else empty)
       ++ utf8 " (modified)" ++ [LF]
  /\ add_file_line act text (file false true v)
     = text ++ utf8 "● " ++ n
       ++ (if act then utf8 " (" ++ _get_content_type (file false true v)
                       ++ utf8 ")" else empty)
       ++ utf8 " (deleted)" ++ [LF]
  /\ add_file_line act text (file false false true)
     = text ++ utf8 "● " ++ n
       ++ (if act then utf8 " (" ++ _get_content_type (file false false true)
                       ++ utf8 ")" else empty)
       ++ utf8 " (moved)" ++ [LF].
Proof.
  intros file. do 8 (split; [reflexivity|]).
  subst file. rewrite !add_file_line_eq. unfold bullet_line.
  repeat split; destruct act; cbn [content_filename];
    rewrite <- ?app_assoc; reflexivity.
Qed.

(** ** C6 *)

(** C6. The messages of a batch are those of its courses, in the order of
    the input; the messages of a course are those of its categories in the
    order assign, calendar, folder, forum, resource, quiz, misc; the events
    of a category are those of the course whose module name is the
    category (or, for misc, no category), in their order of arrival; a
    category without events gives no message; assign, folder, resource and
    misc give one combined message for their events; calendar, forum and
    quiz give one message for each event, in the order of the events.  The
    builder raises what the first failing step raises. *)
Theorem message_order (changes : list Course) :
  create_full_moodle_diff_messages changes
  = concat_map_r
      (fun c =>
         concat_map_r
           (fun cat =>
              category_rule (display_name c) cat (bucket cat (files c)))
           [ utf8 "assign"; utf8 "calendar"; utf8 "folder"; utf8 "forum";
             utf8 "resource"; utf8 "quiz"; utf8 "misc" ])
      changes.
Proof. apply builder_rules. Qed.

(** ** C7 *)

(** C7, as the spec states it, fails: a file name with a line break
    followed by a bullet gives two bullet lines for one event; and a
    calendar event that cannot be read makes the builder raise, so that no
    message is rendered at all. *)
Lemma events_preserved_counterexample :
  create_full_moodle_diff_messages line_break_batch
  = Ok [ mk_NtfyMessage (utf8 "🗂️ 1 misc updates")
           (join_lines [utf8 "📘 C"; utf8 "● a"; utf8 "● b"]) None ]
  /\ total_referenced
       [ mk_NtfyMessage (utf8 "🗂️ 1 misc updates")
           (join_lines [utf8 "📘 C"; utf8 "● a"; utf8 "● b"]) None ]
     = 2%nat
  /\ total_input line_break_batch = 1%nat
  /\ create_full_moodle_diff_messages
       [mk_Course (utf8 "C") None [one_token_event]]
     = Raise (ValueError (not_enough_values_to_unpack 3 1)).
Proof. repeat split; vm_compute; reflexivity. Qed.

(** C7, amended. When the builder returns, every event of a course is in
    the bucket of exactly one category; the messages are, course after
    course and bucket after bucket, the messages of the buckets, and the
    messages of a bucket render each of its events once: one message for
    an event of calendar, forum or quiz, one line of the combined message
    for an event of assign, folder, resource or misc.  The events that the
    messages stand for (one for a message of calendar, forum or quiz, one
    for each bullet line of a combined message) are as many as the files
    of the batch and the places where a name shown in a combined message
    holds a line break followed by a bullet; they are as many as the files
    exactly when there is no such place. *)
Theorem events_preserved (changes : list Course) (msgs : list NtfyMessage) :
  create_full_moodle_diff_messages changes = Ok msgs ->
  Forall (fun c => Permutation (concat (map snd (course_buckets c))) (files c))
    changes
  /\ (exists groups : list (list (list NtfyMessage)),
        msgs = concat (map (@concat NtfyMessage) groups)
        /\ Forall2
             (fun c course_groups =>
                Forall2
                  (fun item g =>
                     renders_each (display_name c) item g
                     /\ total_referenced g
                        = (List.length (snd item)
                           + shown_breaks (display_name c) item)%nat)
                  (course_buckets c) course_groups)
             changes groups)
  /\ total_referenced msgs = (total_input changes + batch_breaks changes)%nat
  /\ (total_referenced msgs = total_input changes
      <-> batch_breaks changes = 0%nat).
Proof.
  intros Hm. split.
  { apply Forall_forall. intros c _. apply buckets_permutation. }
  split; [apply batch_groups, Hm|].
  pose proof (batch_count changes msgs Hm) as E.
  split; [exact E | lia].
Qed.

Lemma events_preserved_witness :
  exists msgs,
    create_full_moodle_diff_messages algebra_batch = Ok msgs
    /\ total_referenced msgs
       = (total_input algebra_batch + batch_breaks algebra_batch)%nat
    /\ (total_referenced msgs = total_input algebra_batch
        <-> batch_breaks algebra_batch = 0%nat).
Proof.
  eexists. split; [vm_compute; reflexivity|].
  apply (events_preserved algebra_batch). vm_compute; reflexivity.
Defined.

(** ** C8 *)

(** C8. A bucket that is not empty under a key without a branch makes the
    loop over the buckets raise: its own step raises the [AssertionError],
    and the loop raises whatever comes before it.  With the default
    categories no such key is in the map of the aggregator, and the
    builder never raises the [AssertionError]. *)
Theorem unprocessed_category (cn k : str) (fs : list File)
    (items : bucket_map) (msgs : list NtfyMessage) (c : Course)
    (changes : list Course) (msg : str) :
  In (k, fs) items -> fs <> [] -> has_rule k = false ->
  handle_bucket cn (k, fs) msgs = Raise (AssertionError unprocessed_msg)
  /\ (exists e, for_each (handle_bucket cn) items msgs = Raise e)
  /\ ~ In k (map fst (map_ (fold_left add (files c)
               (FileAggregatorByMod_init default_mod_categories))))
  /\ forallb has_rule
       (map fst (map_ (fold_left add (files c)
          (FileAggregatorByMod_init default_mod_categories)))) = true
  /\ create_full_moodle_diff_messages changes <> Raise (AssertionError msg).
Proof.
  intros Hin Hfs Hk. destruct fs as [|f fs]; [congruence|].
  assert (Hkeys : map fst (map_ (fold_left add (files c)
            (FileAggregatorByMod_init default_mod_categories)))
          = category_order).
  { rewrite aggregator_buckets, map_map. cbn [fst]. apply map_id. }
  split; [apply unknown_key_raises, Hk|].
  split.
  { eapply for_each_raises_at; [exact Hin|].
    intros s; apply unknown_key_raises, Hk. }
  rewrite Hkeys. split; [|split; [reflexivity|]].
  - intros Hc. unfold category_order in Hc; cbn [In] in Hc.
    repeat (destruct Hc as [<- | Hc]); try discriminate Hk. exact Hc.
  - intros E. apply builder_raises in E as (w & E). discriminate E.
Qed.

Lemma unprocessed_category_witness :
  handle_bucket (utf8 "C")
    (utf8 "wiki", [file_of "Home" "page" "wiki" false false false]) []
  = Raise (AssertionError unprocessed_msg)
  /\ (exists e, for_each (handle_bucket (utf8 "C")) wiki_items [] = Raise e)
  /\ ~ In (utf8 "wiki") (map fst (map_ (fold_left add
               (files (mk_Course (utf8 "C") None []))
               (FileAggregatorByMod_init default_mod_categories))))
  /\ forallb has_rule
       (map fst (map_ (fold_left add (files (mk_Course (utf8 "C") None []))
          (FileAggregatorByMod_init default_mod_categories)))) = true
  /\ create_full_moodle_diff_messages algebra_batch
     <> Raise (AssertionError unprocessed_msg).
Proof.
  apply (unprocessed_category (utf8 "C") (utf8 "wiki")
           [file_of "Home" "page" "wiki" false false false] wiki_items []
           (mk_Course (utf8 "C") None []) algebra_batch unprocessed_msg);
    [left; reflexivity | discriminate | vm_compute; reflexivity].
Defined.

(** ** C9 *)

(** C9. A combined message (assign, resource or folder, misc, and any
    other use of the generic one) has no link; the message of a calendar
    event, of a forum post and of a quiz has the link of its event. *)
Theorem source_url_of_messages (fs : list File) (cn kw : str)
    (emoji : option str) (act : bool) (g f : File) (m : NtfyMessage) :
  make_calendar_message f cn = Ok m ->
  source_url (make_generic_combined_message fs cn kw emoji act) = None
  /\ source_url (make_assign_combined_message fs cn) = None
  /\ source_url (make_resource_combined_message fs cn) = None
  /\ source_url (make_forum_message g cn) = content_fileurl g
  /\ source_url (make_quiz_message g cn) = content_fileurl g
  /\ source_url m = content_fileurl f.
Proof.
  intros Hm. do 5 (split; [reflexivity|]).
  unfold make_calendar_message in Hm.
  destruct (split _ 2 _) as [|a [|b [|c [|d l]]]]; try discriminate.
  destruct (iso_to_time_dmy a b); simpl in Hm; [|discriminate].
  injection Hm as <-. reflexivity.
Qed.

Lemma source_url_of_messages_witness :
  source_url (make_generic_combined_message [midterm_event] (utf8 "C")
                (utf8 "misc") (Some (utf8 "🗂️")) false) = None
  /\ source_url (make_assign_combined_message [midterm_event] (utf8 "C"))
     = None
  /\ source_url (make_resource_combined_message [midterm_event] (utf8 "C"))
     = None
  /\ source_url (make_forum_message midterm_event (utf8 "C"))
     = content_fileurl midterm_event
  /\ source_url (make_quiz_message midterm_event (utf8 "C"))
     = content_fileurl midterm_event
  /\ source_url (mk_NtfyMessage (utf8 "⏰ Midterm Exam @ 02:35 PM 23.09.24")
                   (utf8 "📘 C") None)
     = content_fileurl midterm_event.
Proof.
  apply (source_url_of_messages [midterm_event] (utf8 "C") (utf8 "misc")
           (Some (utf8 "🗂️")) false midterm_event midterm_event).
  vm_compute; reflexivity.
Defined.

(** ** C10 *)

(** C10. The name a course is shown under is [overwrite_name_with] when
    that is a string that is not empty, and [fullname] when it is [None]
    or the empty string; it is the name in the body of the messages of
    the course. *)
Theorem course_name_fallback (c : Course) (msgs : list NtfyMessage)
    (fn a p t : str) (ow u : option str) (fs : list File) (x : char)
    (s : str) (m d v : bool) :
  or_else (overwrite_name_with (mk_Course fn None fs)) fn = fn
  /\ or_else (overwrite_name_with (mk_Course fn (Some []) fs)) fn = fn
  /\ or_else (overwrite_name_with (mk_Course fn (Some (x :: s)) fs)) fn
     = x :: s
  /\ handle_course c msgs
     = for_each
         (handle_bucket
            (match overwrite_name_with c with
             | Some (y :: o) => y :: o
             | _ => fullname c
             end))
         (map_ (fold_left add (files c)
                  (FileAggregatorByMod_init default_mod_categories)))
         msgs
  /\ create_full_moodle_diff_messages
       [mk_Course fn ow [mk_File a p u t (utf8 "quiz") m d v]]
     = Ok [ mk_NtfyMessage (utf8 "💻 " ++ a)
              (utf8 "📘 " ++ match ow with
                             | Some (y :: o) => y :: o
                             | _ => fn
                             end) u ].
Proof.
  do 3 (split; [reflexivity|]). split.
  - unfold handle_course. rewrite or_else_display. reflexivity.
  - destruct ow as [[|y o]|]; reflexivity.
Qed.

(** * Further properties *)

(** ** [remove_until_first_space] *)

Lemma contains_sep_app (sep : char) (a r : str) :
  contains sep (a ++ sep :: r) = true.
Proof.
  rewrite contains_app. unfold contains at 2; simpl.
  rewrite N.eqb_refl, orb_true_r; reflexivity.
Qed.

(** X1. [remove_until_first_space] leaves a string without a space as it
    is, and cuts any other string after its first space, keeping all that
    follows, further spaces included; the title of a forum message is the
    envelope followed by what is left of the file path. *)
Theorem first_word_removed (a r cn n t mn : str) (u : option str)
    (m d v : bool) :
  contains (ch " ") a = false ->
  remove_until_first_space a = a
  /\ remove_until_first_space (a ++ utf8 " " ++ r) = r
  /\ title (make_forum_message (mk_File n (a ++ utf8 " " ++ r) u t mn m d v) cn)
     = utf8 "✉️ " ++ r
  /\ title (make_forum_message (mk_File n a u t mn m d v) cn)
     = utf8 "✉️ " ++ a.
Proof.
  intros Ha.
  assert (E1 : remove_until_first_space a = a)
    by (unfold remove_until_first_space; rewrite Ha; reflexivity).
  assert (E2 : remove_until_first_space (a ++ utf8 " " ++ r) = r).
  { unfold remove_until_first_space.
    change (utf8 " " ++ r) with (ch " " :: r).
    rewrite contains_sep_app, (split_app_sep _ _ _ _ Ha), split_0.
    reflexivity. }
  repeat split; auto.
  - unfold make_forum_message; cbn [title content_filepath]. rewrite E2.
    reflexivity.
  - unfold make_forum_message; cbn [title content_filepath]. rewrite E1.
    reflexivity.
Qed.

Lemma first_word_removed_witness :
  remove_until_first_space (utf8 "/Week") = utf8 "/Week"
  /\ remove_until_first_space (utf8 "/Week" ++ utf8 " " ++ utf8 "1/News forum")
     = utf8 "1/News forum"
  /\ title (make_forum_message
              (mk_File (utf8 "post") (utf8 "/Week" ++ utf8 " " ++ utf8 "1/News forum")
                 None (utf8 "t") (utf8 "forum") false false false) (utf8 "C"))
     = utf8 "✉️ " ++ utf8 "1/News forum"
  /\ title (make_forum_message
              (mk_File (utf8 "post") (utf8 "/Week") None (utf8 "t")
                 (utf8 "forum") false false false) (utf8 "C"))
     = utf8 "✉️ " ++ utf8 "/Week".
Proof.
  apply (first_word_removed (utf8 "/Week") (utf8 "1/News forum") (utf8 "C")
           (utf8 "post") (utf8 "t") (utf8 "forum") None false false false).
  vm_compute; reflexivity.
Defined.

(** ** [iso_to_time_dmy] *)

Lemma decimal_value_le (c : char) (v : N) :
  decimal_value c = Some v -> 0 <= v <= 9.
Proof.
  unfold decimal_value.
  destruct (find (fun z => (z <=? c) && (c <=? z + 9)) decimal_zeros)
    as [z|] eqn:E; [|discriminate].
  apply find_some in E as [_ E]. apply andb_true_iff in E as [E1 E2].
  apply N.leb_le in E1, E2. intros [= <-]. lia.
Qed.

Lemma rng_bound (lo hi : ascii) (c : char) (v : N) :
  48 <= ch lo -> rng lo hi c = Some v -> ch lo - 48 <= v <= ch hi - 48.
Proof.
  intros Hlo. unfold rng, in_range, digit_value.
  destruct (_ && _) eqn:E; [|discriminate]. intros [= <-].
  apply andb_true_iff in E as [E1 E2]. apply N.leb_le in E1, E2. lia.
Qed.

Lemma two_bound (a b : char_class) (la ha lb hb : N) (s : str) (v : N)
    (r : str) :
  (forall c x, a c = Some x -> la <= x <= ha) ->
  (forall c x, b c = Some x -> lb <= x <= hb) ->
  two a b s = Some (v, r) -> 10 * la + lb <= v <= 10 * ha + hb.
Proof.
  intros Ha Hb. unfold two. destruct s as [|c1 [|c2 s]]; try discriminate.
  destruct (a c1) as [v1|] eqn:E1; [|discriminate].
  destruct (b c2) as [v2|] eqn:E2; [|discriminate].
  remember (10 * v1 + v2) as w. intros [= <- <-]. subst w.
  specialize (Ha c1 v1 E1). specialize (Hb c2 v2 E2). lia.
Qed.

Lemma one_bound (a : char_class) (la ha : N) (s : str) (v : N) (r : str) :
  (forall c x, a c = Some x -> la <= x <= ha) ->
  one a s = Some (v, r) -> la <= v <= ha.
Proof.
  intros Ha. unfold one. destruct s as [|c s]; [discriminate|].
  destruct (a c) as [v1|] eqn:E1; [|discriminate].
  intros [= <- <-]. apply (Ha c v1 E1).
Qed.

Lemma alt_inv (p q : matcher) (s : str) (x : N * str) :
  (p <|> q) s = Some x -> p s = Some x \/ q s = Some x.
Proof. unfold alt. destruct (p s); auto. Qed.

Lemma rng_values (lo hi : ascii) (la ha : N) :
  48 <= ch lo -> la = ch lo - 48 -> ha = ch hi - 48 ->
  forall c x, rng lo hi c = Some x -> la <= x <= ha.
Proof. intros Hlo -> -> c x. apply rng_bound, Hlo. Qed.

Lemma re_m_bound : forall s v r, re_m s = Some (v, r) -> 1 <= v <= 12.
Proof.
  intros s v r H. unfold re_m in H.
  apply alt_inv in H as [H | H]; [apply alt_inv in H as [H | H]|].
  - apply (two_bound _ _ 1 1 0 2) in H; [lia | |];
      apply rng_values; vm_compute; congruence.
  - apply (two_bound _ _ 0 0 1 9) in H; [lia | |];
      apply rng_values; vm_compute; congruence.
  - apply (one_bound _ 1 9) in H; [lia|].
    apply rng_values; vm_compute; congruence.
Qed.

Lemma re_d_bound : forall s v r, re_d s = Some (v, r) -> 1 <= v <= 31.
Proof.
  intros s v r H. unfold re_d in H.
  repeat (apply alt_inv in H as [H | H]).
  - apply (two_bound _ _ 3 3 0 1) in H; [lia | |];
      apply rng_values; vm_compute; congruence.
  - apply (two_bound _ _ 1 2 0 9) in H; [lia | |].
    + apply rng_values; vm_compute; congruence.
    + intros c x. apply decimal_value_le.
  - apply (two_bound _ _ 0 0 1 9) in H; [lia | |];
      apply rng_values; vm_compute; congruence.
  - apply (one_bound _ 1 9) in H; [lia|].
    apply rng_values; vm_compute; congruence.
  - destruct (lit " " s) as [s'|]; [|discriminate].
    apply (one_bound _ 1 9) in H; [lia|].
    apply rng_values; vm_compute; congruence.
Qed.

Lemma re_H_bound : forall s v r, re_H s = Some (v, r) -> v <= 23.
Proof.
  intros s v r H. unfold re_H in H.
  repeat (apply alt_inv in H as [H | H]).
  - apply (two_bound _ _ 2 2 0 3) in H; [lia | |];
      apply rng_values; vm_compute; congruence.
  - apply (two_bound _ _ 0 1 0 9) in H; [lia | |].
    + apply rng_values; vm_compute; congruence.
    + intros c x. apply decimal_value_le.
  - apply (one_bound _ 0 9) in H; [lia|].
    intros c x. apply decimal_value_le.
Qed.

Lemma re_M_bound : forall s v r, re_M s = Some (v, r) -> v <= 59.
Proof.
  intros s v r H. unfold re_M in H.
  repeat (apply alt_inv in H as [H | H]).
  - apply (two_bound _ _ 0 5 0 9) in H; [lia | |].
    + apply rng_values; vm_compute; congruence.
    + intros c x. apply decimal_value_le.
  - apply (one_bound _ 0 9) in H; [lia|].
    intros c x. apply decimal_value_le.
Qed.

Lemma re_Y_bound : forall s v r, re_Y s = Some (v, r) -> v <= 9999.
Proof.
  unfold re_Y, digit.
  intros [|a [|b [|c [|d r]]]] v r'; try discriminate.
  destruct (decimal_value a) as [va|] eqn:Ea; [|discriminate].
  destruct (decimal_value b) as [vb|] eqn:Eb; [|discriminate].
  destruct (decimal_value c) as [vc|] eqn:Ec; [|discriminate].
  destruct (decimal_value d) as [vd|] eqn:Ed; [|discriminate].
  remember (1000 * va + 100 * vb + 10 * vc + vd) as w.
  intros [= <- <-]. subst w.
  apply decimal_value_le in Ea, Eb, Ec, Ed. lia.
Qed.

Lemma match_Ymd_HM_bounds (data rest : str) (dt : datetime) :
  match_Ymd_HM data = Some (dt, rest) ->
  year dt <= 9999 /\ 1 <= month dt <= 12 /\ 1 <= day dt <= 31
  /\ hour dt <= 23 /\ minute dt <= 59.
Proof.
  unfold match_Ymd_HM.
  destruct (re_Y data) as [[Y s1]|] eqn:EY; cbn [obind]; [|discriminate].
  destruct (lit "." s1) as [s2|]; cbn [obind]; [|discriminate].
  destruct (re_m s2) as [[m s3]|] eqn:Em; cbn [obind]; [|discriminate].
  destruct (lit "." s3) as [s4|]; cbn [obind]; [|discriminate].
  destruct (re_d s4) as [[d s5]|] eqn:Ed; cbn [obind]; [|discriminate].
  destruct (spaces s5) as [s6|]; cbn [obind]; [|discriminate].
  destruct (re_H s6) as [[H s7]|] eqn:EH; cbn [obind]; [|discriminate].
  destruct (lit ":" s7) as [s8|]; cbn [obind]; [|discriminate].
  destruct (re_M s8) as [[M s9]|] eqn:EM; cbn [obind]; [|discriminate].
  intros [= <- <-]. cbn [year month day hour minute].
  apply re_Y_bound in EY. apply re_m_bound in Em. apply re_d_bound in Ed.
  apply re_H_bound in EH. apply re_M_bound in EM. lia.
Qed.

Lemma strptime_bounds (data : str) (dt : datetime) :
  strptime_Ymd_HM data = Ok dt ->
  1 <= year dt <= 9999 /\ 1 <= month dt <= 12
  /\ 1 <= day dt <= days_in_month (year dt) (month dt)
  /\ hour dt <= 23 /\ minute dt <= 59.
Proof.
  unfold strptime_Ymd_HM.
  destruct (match_Ymd_HM data) as [[dt' [|c r]]|] eqn:E; try discriminate.
  apply match_Ymd_HM_bounds in E.
  destruct (year dt' <? 1) eqn:EY; [discriminate|].
  destruct (_ <? day dt') eqn:Ed; [discriminate|].
  intros [= <-]. apply N.ltb_ge in EY, Ed. lia.
Qed.

(** Whatever [iso_to_time_dmy] returns is the display of a time of the
    day and of a date that exists. *)
Lemma iso_to_time_dmy_display (a b out : str) :
  iso_to_time_dmy a b = Ok out ->
  exists Y m d H M,
    (1 <= Y <= 9999 /\ 1 <= m <= 12 /\ 1 <= d <= days_in_month Y m
     /\ H <= 23 /\ M <= 59)
    /\ out = pad2 (hour12 H) ++ utf8 ":" ++ pad2 M ++ utf8 " "
             ++ (if H <? 12 then utf8 "AM" else utf8 "PM") ++ utf8 " "
             ++ pad2 d ++ utf8 "." ++ pad2 m ++ utf8 "." ++ pad2 (Y mod 100)
    /\ matches_display out = true.
Proof.
  unfold iso_to_time_dmy.
  destruct (strptime_Ymd_HM _) as [dt|e] eqn:E; cbn [bind]; [|discriminate].
  intros [= <-]. apply strptime_bounds in E.
  exists (year dt), (month dt), (day dt), (hour dt), (minute dt).
  split; [exact E|]. split; [reflexivity|].
  pose proof (hour12_le (hour dt)).
  pose proof (days_in_month_le (year dt) (month dt)).
  apply display_matches; try lia. apply N.mod_lt; lia.
Qed.

(** X2. Whatever [iso_to_time_dmy] returns, on any two tokens (padded or
    not), is the display of a time of the day and of a date that exists:
    the hour from 01 to 12, the minutes, AM or PM, then day, month and the
    last two digits of the year, in the pattern
    [^\d{2}:\d{2} (AM|PM) \d{2}\.\d{2}\.\d{2}$]. *)
Theorem time_display_shape (a b out : str) :
  iso_to_time_dmy a b = Ok out ->
  exists Y m d H M,
    (1 <= Y <= 9999 /\ 1 <= m <= 12 /\ 1 <= d <= days_in_month Y m
     /\ H <= 23 /\ M <= 59)
    /\ out = pad2 (hour12 H) ++ utf8 ":" ++ pad2 M ++ utf8 " "
             ++ (if H <? 12 then utf8 "AM" else utf8 "PM") ++ utf8 " "
             ++ pad2 d ++ utf8 "." ++ pad2 m ++ utf8 "." ++ pad2 (Y mod 100)
    /\ 1 <= hour12 H <= 12
    /\ matches_display out = true.
Proof.
  intros E. apply iso_to_time_dmy_display in E
    as (Y & m & d & H & M & Hb & -> & Hm).
  exists Y, m, d, H, M. repeat split; try apply Hb; try exact Hm;
    apply hour12_le.
Qed.

Lemma time_display_shape_witness :
  exists Y m d H M,
    (1 <= Y <= 9999 /\ 1 <= m <= 12 /\ 1 <= d <= days_in_month Y m
     /\ H <= 23 /\ M <= 59)
    /\ utf8 "02:35 PM 23.09.24"
       = pad2 (hour12 H) ++ utf8 ":" ++ pad2 M ++ utf8 " "
             ++ (if H <? 12 then utf8 "AM" else utf8 "PM") ++ utf8 " "
             ++ pad2 d ++ utf8 "." ++ pad2 m ++ utf8 "." ++ pad2 (Y mod 100)
    /\ 1 <= hour12 H <= 12
    /\ matches_display (utf8 "02:35 PM 23.09.24") = true.
Proof.
  apply (time_display_shape (utf8 "2024.09.23") (utf8 "14_35")).
  vm_compute; reflexivity.
Defined.

Lemma replace_idempotent (old new : char) (s : str) :
  (new =? old) = false ->
  replace old new (replace old new s) = replace old new s.
Proof.
  intros H. unfold replace. rewrite map_map. apply map_ext. intros c.
  destruct (c =? old) eqn:E; [rewrite H | rewrite E]; reflexivity.
Qed.

(** X3. [iso_to_time_dmy] turns the underscores of the time token into
    colons before it parses: a time token already written with colons
    gives the same result, value or exception. *)
Theorem time_separator_colon (a b : str) :
  iso_to_time_dmy a (replace (ch "_") (ch ":") b) = iso_to_time_dmy a b.
Proof.
  unfold iso_to_time_dmy. rewrite replace_idempotent; reflexivity.
Qed.

(** ** [make_calendar_message] *)

Lemma split_cons_inv (sep : char) (k : nat) (s a b : str) (rest : list str) :
  split sep (S k) s = a :: b :: rest ->
  exists r, s = a ++ sep :: r /\ contains sep a = false
            /\ split sep k r = b :: rest.
Proof.
  revert a; induction s as [|c s IH]; intros a; cbn [split]; [discriminate|].
  destruct (c =? sep) eqn:E.
  - apply N.eqb_eq in E; subst c. intros [= <- H]. exists s. auto.
  - destruct (split sep (S k) s) as [|fld [|fld' flds]] eqn:Es;
      try discriminate.
    intros [= <- <- <-].
    destruct (IH fld eq_refl) as (r & -> & Hc & Hr).
    exists r. split; [reflexivity|]. split; [|exact Hr].
    unfold contains in *; simpl. rewrite Hc, N.eqb_sym, E. reflexivity.
Qed.

(** A calendar event is rendered only when its file name is a date, a
    space, a time, a space and the name of the event. *)
Lemma calendar_rendered (f : File) (cn : str) (m : NtfyMessage) :
  make_calendar_message f cn = Ok m ->
  exists a b name t,
    content_filename f = a ++ utf8 " " ++ b ++ utf8 " " ++ name
    /\ contains (ch " ") a = false /\ contains (ch " ") b = false
    /\ iso_to_time_dmy a b = Ok t /\ matches_display t = true
    /\ m = mk_NtfyMessage (utf8 "⏰ " ++ name ++ utf8 " @ " ++ t)
             (_get_course_name_str cn) (content_fileurl f).
Proof.
  unfold make_calendar_message.
  destruct (split _ 2 _) as [|a [|b [|c [|x l]]]] eqn:E;
    try (destruct (_ <? _)%nat; discriminate).
  destruct (iso_to_time_dmy a b) as [t|e] eqn:Et; cbn [bind]; [|discriminate].
  intros [= <-].
  apply split_cons_inv in E as (r1 & E1 & Ha & E).
  apply split_cons_inv in E as (r2 & E2 & Hb & E).
  rewrite split_0 in E. injection E as <-.
  exists a, b, r2, t. repeat split; auto.
  - rewrite E1, E2. reflexivity.
  - apply iso_to_time_dmy_display in Et as (? & ? & ? & ? & ? & _ & _ & Hm).
    exact Hm.
Qed.

(** X4. A calendar event is rendered only when its file name is a date
    token, a space, a time token, a space and a name, the two tokens free
    of spaces and accepted by [iso_to_time_dmy]; the message is then the
    alarm clock, the name as it stands, [ @ ] and the displayed time, with
    the line of the course as body and the link of the event. *)
Theorem calendar_message_inversion (f : File) (cn : str) (m : NtfyMessage) :
  make_calendar_message f cn = Ok m ->
  exists a b name t,
    content_filename f = a ++ utf8 " " ++ b ++ utf8 " " ++ name
    /\ contains (ch " ") a = false /\ contains (ch " ") b = false
    /\ iso_to_time_dmy a b = Ok t /\ matches_display t = true
    /\ m = mk_NtfyMessage (utf8 "⏰ " ++ name ++ utf8 " @ " ++ t)
             (_get_course_name_str cn) (content_fileurl f).
Proof. apply calendar_rendered. Qed.

Lemma calendar_message_inversion_witness :
  exists a b name t,
    content_filename midterm_event = a ++ utf8 " " ++ b ++ utf8 " " ++ name
    /\ contains (ch " ") a = false /\ contains (ch " ") b = false
    /\ iso_to_time_dmy a b = Ok t /\ matches_display t = true
    /\ mk_NtfyMessage (utf8 "⏰ Midterm Exam @ 02:35 PM 23.09.24")
         (utf8 "📘 C") None
       = mk_NtfyMessage (utf8 "⏰ " ++ name ++ utf8 " @ " ++ t)
           (_get_course_name_str (utf8 "C")) (content_fileurl midterm_event).
Proof.
  apply (calendar_message_inversion midterm_event (utf8 "C")).
  vm_compute; reflexivity.
Defined.

(** ** [_get_content_type] *)

Lemma str_eqb_neq (a b : str) : str_eqb a b = false <-> a <> b.
Proof.
  rewrite <- str_eqb_eq. destruct (str_eqb a b); split; congruence.
Qed.

(** X5. [_get_content_type] shows a content type other than
    "assign_file" and "submission_file" as it is; what it shows is never
    one of these two names, and showing the result again changes
    nothing. *)
Theorem content_type_display (f g : File) :
  content_type f <> utf8 "assign_file" ->
  content_type f <> utf8 "submission_file" ->
  _get_content_type f = content_type f
  /\ _get_content_type g <> utf8 "assign_file"
  /\ _get_content_type g <> utf8 "submission_file"
  /\ _get_content_type (mk_File (content_filename g) (content_filepath g)
       (content_fileurl g) (_get_content_type g) (module_modname g)
       (modified g) (deleted g) (moved g))
     = _get_content_type g.
Proof.
  intros H1 H2. split.
  - unfold _get_content_type; cbn [dict_get].
    assert (E1 : str_eqb (utf8 "assign_file") (content_type f) = false)
      by (apply str_eqb_neq; congruence).
    assert (E2 : str_eqb (utf8 "submission_file") (content_type f) = false)
      by (apply str_eqb_neq; congruence).
    rewrite E1, E2. reflexivity.
  - unfold _get_content_type; cbn [dict_get content_type].
    destruct (str_eqb (utf8 "assign_file") (content_type g)) eqn:E1.
    { repeat split; try discriminate. }
    destruct (str_eqb (utf8 "submission_file") (content_type g)) eqn:E2.
    { repeat split; try discriminate. }
    rewrite E1, E2.
    apply str_eqb_neq in E1, E2. repeat split; congruence.
Qed.

Lemma content_type_display_witness :
  _get_content_type (file_of "a.pdf" "file" "resource" false false false)
  = content_type (file_of "a.pdf" "file" "resource" false false false)
  /\ _get_content_type midterm_event <> utf8 "assign_file"
  /\ _get_content_type midterm_event <> utf8 "submission_file"
  /\ _get_content_type (mk_File (content_filename midterm_event)
       (content_filepath midterm_event) (content_fileurl midterm_event)
       (_get_content_type midterm_event) (module_modname midterm_event)
       (modified midterm_event) (deleted midterm_event) (moved midterm_event))
     = _get_content_type midterm_event.
Proof.
  apply (content_type_display
           (file_of "a.pdf" "file" "resource" false false false) midterm_event);
    vm_compute; discriminate.
Defined.

(** ** The title of a combined message *)

Lemma read_digits_uint (d : Decimal.uint) (rest : str) (acc : nat) :
  read_digits (uint_str d ++ ch " " :: rest) acc = Nat.of_uint_acc d acc.
Proof.
  revert acc; induction d; intros acc; cbn [uint_str app read_digits];
    try reflexivity;
    match goal with
    | |- context [in_range "0" "9" ?c] =>
        change (in_range "0" "9" c) with true
    end; cbv iota; rewrite IHd; cbn [Nat.of_uint_acc]; f_equal;
    rewrite Nat.tail_mul_spec;
    match goal with
    | |- context [digit_value ?c] =>
        let v := eval vm_compute in (N.to_nat (digit_value c)) in
        change (N.to_nat (digit_value c)) with v
    end; lia.
Qed.

Lemma leading_number_str_of_nat (n : nat) (rest : str) :
  leading_number (str_of_nat n ++ utf8 " " ++ rest) = n.
Proof.
  unfold leading_number, str_of_nat.
  change (utf8 " " ++ rest) with (ch " " :: rest).
  rewrite read_digits_uint. apply DecimalNat.Unsigned.of_to.
Qed.

(** ** The body of a combined message *)

Lemma lstrip_idempotent (s : str) : lstrip (lstrip s) = lstrip s.
Proof.
  induction s as [|c s IH]; [reflexivity|]. cbn [lstrip].
  destruct (isspace c) eqn:E; [exact IH|]. cbn [lstrip]. rewrite E.
  reflexivity.
Qed.

Lemma rstrip_idempotent (s : str) : rstrip (rstrip s) = rstrip s.
Proof.
  unfold rstrip. rewrite rev_involutive, lstrip_idempotent. reflexivity.
Qed.

Lemma rstrip_keeps (a : str) (c : char) (b : str) :
  isspace c = false ->
  exists b', rstrip (a ++ c :: b) = a ++ c :: b'.
Proof.
  intros Hc. destruct (rstrip_cons c b Hc) as (b' & w & E & _).
  exists b'. rewrite rstrip_app; rewrite E; [reflexivity | discriminate].
Qed.

(** The body of a combined message of at least one file keeps the line of
    the course name whole, and goes on with a bullet. *)
Lemma combined_text_head (f : File) (fs : list File) (cn kw : str)
    (e : option str) (act : bool) :
  exists rest,
    text (make_generic_combined_message (f :: fs) cn kw e act)
    = _get_course_name_str cn ++ [LF] ++ utf8 "●" ++ rest.
Proof.
  rewrite combined_text. cbn [map concat].
  set (C := concat (map (fun l => l ++ [LF]) (map (bullet_line act) fs))).
  assert (EX : _get_course_name_str cn ++ [LF]
                 ++ (bullet_line act f ++ [LF]) ++ C
               = (_get_course_name_str cn ++ [LF])
                 ++ 9679 :: (tl (bullet_line act f) ++ [LF] ++ C)).
  { rewrite <- !app_assoc. reflexivity. }
  rewrite EX.
  destruct (rstrip_keeps (_get_course_name_str cn ++ [LF]) 9679
              (tl (bullet_line act f) ++ [LF] ++ C) eq_refl) as (b' & E).
  exists b'. etransitivity; [exact E|]. rewrite <- app_assoc. reflexivity.
Qed.

(** X7. The body of a combined message has no white space at its end and
    starts with the book of the course line, whatever the names; with at
    least one file the line of the course is kept whole and followed by a
    bullet; with no file the body is the line of the course, trimmed. *)
Theorem combined_body_shape (f : File) (fs : list File) (cn kw : str)
    (e : option str) (act : bool) :
  rstrip (text (make_generic_combined_message fs cn kw e act))
  = text (make_generic_combined_message fs cn kw e act)
  /\ (exists body,
        text (make_generic_combined_message fs cn kw e act)
        = utf8 "📘" ++ body)
  /\ (exists rest,
        text (make_generic_combined_message (f :: fs) cn kw e act)
        = _get_course_name_str cn ++ [LF] ++ utf8 "●" ++ rest)
  /\ text (make_generic_combined_message [] cn kw e act)
     = rstrip (_get_course_name_str cn).
Proof.
  split; [|split; [|split]].
  - unfold make_generic_combined_message; cbn [text].
    apply rstrip_idempotent.
  - rewrite combined_text.
    change (_get_course_name_str cn) with (128216 :: 32 :: cn).
    destruct (rstrip_keeps [] 128216
                (32 :: cn ++ [LF]
                   ++ concat (map (fun l => l ++ [LF])
                                (map (bullet_line act) fs))) eq_refl)
      as (b' & E).
    exists b'. cbn [app] in *. exact E.
  - apply combined_text_head.
  - rewrite combined_text. cbn [map concat]. rewrite app_nil_r.
    apply rstrip_LF.
Qed.

(** ** [FileAggregatorByMod] on any list of categories *)

Lemma dict_mem_keys (k : str) (d : bucket_map) :
  dict_mem k d = existsb (fun key => str_eqb key k) (dict_keys d).
Proof.
  unfold dict_mem, dict_keys. induction d as [|[k' v] d IH]; simpl;
    [|rewrite IH]; reflexivity.
Qed.

Lemma dict_set_keys (key : str) (v : list File) (d : bucket_map) :
  dict_keys (dict_set key v d)
  = if dict_mem key d then dict_keys d else dict_keys d ++ [key].
Proof.
  unfold dict_mem, dict_keys. induction d as [|[k' v'] d IH]; [reflexivity|].
  cbn [dict_set existsb map fst]. destruct (str_eqb k' key); cbn [orb].
  - reflexivity.
  - cbn [map fst]. rewrite IH. destruct (existsb _ d); reflexivity.
Qed.

Lemma dict_set_mem (k key : str) (v : list File) (d : bucket_map) :
  dict_mem k (dict_set key v d) = dict_mem k d || str_eqb key k.
Proof.
  unfold dict_mem. induction d as [|[e w] d IH]; cbn [dict_set existsb fst].
  - rewrite orb_false_r. reflexivity.
  - destruct (str_eqb e key) eqn:E; cbn [existsb fst].
    + apply str_eqb_eq in E; subst e.
      destruct (str_eqb key k); [reflexivity|]. cbn [orb].
      rewrite orb_false_r. reflexivity.
    + rewrite IH, orb_assoc. reflexivity.
Qed.

Lemma dict_set_empty (key : str) (d : bucket_map) :
  Forall (fun item => snd item = []) d ->
  Forall (fun item => snd item = []) (dict_set key [] d).
Proof.
  induction 1 as [|[k v] d Hv Hd IH]; cbn [dict_set].
  - constructor; [reflexivity | constructor].
  - destruct (str_eqb k key); constructor; auto.
Qed.

Lemma existsb_snoc (p : str -> bool) (l : list str) (k : str) :
  existsb p (l ++ [k]) = existsb p l || p k.
Proof. rewrite existsb_app; simpl; rewrite orb_false_r; reflexivity. Qed.

Lemma fold_dict_set (l : list str) (d : bucket_map) :
  Forall (fun item => snd item = []) d ->
  let d' := fold_left (fun d key => dict_set key [] d) l d in
  dict_keys d' = dict_keys d ++ first_occurrences (dict_keys d) l
  /\ Forall (fun item => snd item = []) d'
  /\ forall k, dict_mem k d'
               = dict_mem k d || existsb (fun key => str_eqb key k) l.
Proof.
  revert d; induction l as [|key l IH]; intros d Hd; cbn [fold_left].
  - cbn. rewrite app_nil_r. repeat split; auto.
    intros k; rewrite orb_false_r; reflexivity.
  - destruct (IH (dict_set key [] d) (dict_set_empty key d Hd))
      as (Hk & He & Hm).
    cbn zeta in *. split; [|split; [exact He|]].
    + rewrite Hk, dict_set_keys. cbn [first_occurrences].
      rewrite <- dict_mem_keys. destruct (dict_mem key d); [reflexivity|].
      rewrite <- app_assoc. reflexivity.
    + intros k. rewrite Hm, dict_set_mem. cbn [existsb].
      rewrite orb_assoc. reflexivity.
Qed.

Lemma first_occurrences_fresh (l seen : list str) :
  NoDup (first_occurrences seen l)
  /\ forall k, In k (first_occurrences seen l) ->
               existsb (fun key => str_eqb key k) seen = false.
Proof.
  revert seen; induction l as [|k l IH]; intros seen; cbn [first_occurrences].
  - split; [constructor | contradiction].
  - destruct (existsb _ seen) eqn:E; [apply IH|].
    destruct (IH (seen ++ [k])) as [Hn Hf]. split.
    + constructor; [|exact Hn]. intros Hin. apply Hf in Hin.
      rewrite existsb_snoc, str_eqb_refl, orb_true_r in Hin. discriminate.
    + intros x [<- | Hx]; [exact E|]. apply Hf in Hx.
      rewrite existsb_snoc in Hx. apply orb_false_elim in Hx as [Hx _].
      exact Hx.
Qed.

(** The map of a new aggregator. *)
Lemma init_map (cats : list str) :
  dict_keys (map_ (FileAggregatorByMod_init cats))
  = first_occurrences [] (cats ++ [utf8 "misc"])
  /\ Forall (fun item => snd item = []) (map_ (FileAggregatorByMod_init cats))
  /\ forall k, dict_mem k (map_ (FileAggregatorByMod_init cats))
               = existsb (fun key => str_eqb key k) (cats ++ [utf8 "misc"]).
Proof.
  unfold FileAggregatorByMod_init; cbn [map_].
  destruct (fold_dict_set (cats ++ [utf8 "misc"]) [] (Forall_nil _))
    as (Hk & He & Hm).
  cbn zeta in *. repeat split; auto.
Qed.

(** X8. For any list of categories, the map of a new aggregator has the
    categories and then "misc" as keys, each once, in the order of their
    first occurrence; the catch-all is always a key, also when the caller
    lists it; every bucket is empty. *)
Theorem aggregator_initial_map (cats : list str) (k : str) :
  dict_keys (map_ (FileAggregatorByMod_init cats))
  = first_occurrences [] (cats ++ [utf8 "misc"])
  /\ NoDup (dict_keys (map_ (FileAggregatorByMod_init cats)))
  /\ Forall (fun item => snd item = []) (map_ (FileAggregatorByMod_init cats))
  /\ dict_mem (utf8 "misc") (map_ (FileAggregatorByMod_init cats)) = true
  /\ dict_mem k (map_ (FileAggregatorByMod_init cats))
     = existsb (fun key => str_eqb key k) (cats ++ [utf8 "misc"]).
Proof.
  destruct (init_map cats) as (Hk & He & Hm).
  split; [exact Hk|]. split; [|split; [exact He|split; [|apply Hm]]].
  - rewrite Hk. apply first_occurrences_fresh.
  - rewrite Hm, existsb_snoc, str_eqb_refl, orb_true_r. reflexivity.
Qed.

Lemma dict_append_keys (k : str) (f : File) (d : bucket_map) :
  dict_keys (dict_append k f d) = dict_keys d.
Proof.
  unfold dict_keys. induction d as [|[k' v] d IH]; [reflexivity|].
  cbn [dict_append]. destruct (str_eqb k' k); cbn [map fst];
    [|rewrite IH]; reflexivity.
Qed.

Lemma dict_size_cons (k : str) (v : list File) (d : bucket_map) :
  dict_size ((k, v) :: d) = (List.length v + dict_size d)%nat.
Proof. reflexivity. Qed.

Lemma dict_append_size (k : str) (f : File) (d : bucket_map) :
  dict_mem k d = true ->
  dict_size (dict_append k f d) = S (dict_size d).
Proof.
  induction d as [|[k' v] d IH]; [discriminate|].
  unfold dict_mem. cbn [existsb fst dict_append].
  destruct (str_eqb k' k); cbn [orb]; rewrite !dict_size_cons.
  - intros _. rewrite length_app. simpl. lia.
  - intros H. rewrite (IH H). lia.
Qed.

(** The key under which [add] files [f]. *)
Lemma add_key (self : FileAggregatorByMod) (f : File) :
  map_ (add self f)
  = dict_append
      (if dict_mem (module_modname f) (map_ self)
       then module_modname f else utf8 "misc") f (map_ self).
Proof. unfold add. destruct (dict_mem _ _); reflexivity. Qed.

(** X9. On an aggregator that has the key "misc", [add] keeps the keys and
    their order, keeps "misc" a key and makes the buckets hold exactly one
    file more. *)
Theorem add_keeps_keys (self : FileAggregatorByMod) (f : File) :
  dict_mem (utf8 "misc") (map_ self) = true ->
  dict_keys (map_ (add self f)) = dict_keys (map_ self)
  /\ dict_size (map_ (add self f)) = S (dict_size (map_ self))
  /\ dict_mem (utf8 "misc") (map_ (add self f)) = true.
Proof.
  intros Hm. rewrite add_key. split; [apply dict_append_keys|]. split.
  - apply dict_append_size. destruct (dict_mem (module_modname f) _) eqn:E;
      assumption.
  - rewrite dict_mem_keys, dict_append_keys, <- dict_mem_keys. exact Hm.
Qed.

Lemma add_keeps_keys_witness :
  dict_keys (map_ (add (FileAggregatorByMod_init default_mod_categories)
                     midterm_event))
  = dict_keys (map_ (FileAggregatorByMod_init default_mod_categories))
  /\ dict_size (map_ (add (FileAggregatorByMod_init default_mod_categories)
                        midterm_event))
     = S (dict_size (map_ (FileAggregatorByMod_init default_mod_categories)))
  /\ dict_mem (utf8 "misc")
       (map_ (add (FileAggregatorByMod_init default_mod_categories)
                midterm_event)) = true.
Proof.
  apply (add_keeps_keys (FileAggregatorByMod_init default_mod_categories)
           midterm_event).
  vm_compute; reflexivity.
Defined.

Lemma dict_lookup_append (k k' : str) (f : File) (d : bucket_map) :
  dict_lookup k (dict_append k' f d)
  = if str_eqb k' k
    then option_map (fun v => v ++ [f]) (dict_lookup k d)
    else dict_lookup k d.
Proof.
  induction d as [|[e v] d IH].
  - cbn. destruct (str_eqb k' k); reflexivity.
  - cbn [dict_append dict_lookup].
    destruct (str_eqb k' k) eqn:Ek.
    + apply str_eqb_eq in Ek; subst k'.
      destruct (str_eqb e k) eqn:Ee; cbn [dict_lookup]; rewrite Ee;
        [reflexivity | exact IH].
    + destruct (str_eqb e k') eqn:Ee'; cbn [dict_lookup].
      * apply str_eqb_eq in Ee'; subst e. rewrite Ek. reflexivity.
      * destruct (str_eqb e k); [reflexivity | exact IH].
Qed.

Lemma fold_add_lookup (fs : list File) (d : bucket_map) (k : str) :
  dict_lookup k (map_ (fold_left add fs (mk_FileAggregatorByMod d)))
  = option_map
      (fun v =>
         v ++ filter
                (fun f =>
                   str_eqb (if dict_mem (module_modname f) d
                            then module_modname f else utf8 "misc") k)
                fs)
      (dict_lookup k d).
Proof.
  revert d; induction fs as [|f fs IH]; intros d; cbn [fold_left filter].
  - cbn [map_]. destruct (dict_lookup k d); cbn [option_map];
      [rewrite app_nil_r|]; reflexivity.
  - pose proof (add_key (mk_FileAggregatorByMod d) f) as E. cbn [map_] in E.
    destruct (add (mk_FileAggregatorByMod d) f) as [d']. cbn [map_] in E.
    subst d'. rewrite IH, dict_lookup_append.
    set (kf := if dict_mem (module_modname f) d
               then module_modname f else utf8 "misc").
    rewrite (filter_ext
               (fun g => str_eqb
                  (if dict_mem (module_modname g) (dict_append kf f d)
                   then module_modname g else utf8 "misc") k)
               (fun g => str_eqb
                  (if dict_mem (module_modname g) d
                   then module_modname g else utf8 "misc") k)).
    + destruct (str_eqb kf k); destruct (dict_lookup k d); cbn;
        rewrite <- ?app_assoc; reflexivity.
    + intros g. rewrite (dict_mem_keys _ (dict_append kf f d)),
        dict_append_keys, <- dict_mem_keys. reflexivity.
Qed.

Lemma dict_lookup_empty (k : str) (d : bucket_map) :
  Forall (fun item => snd item = []) d ->
  dict_lookup k d = if dict_mem k d then Some [] else None.
Proof.
  unfold dict_mem. induction 1 as [|[e v] d Hv _ IH]; [reflexivity|].
  cbn [dict_lookup existsb fst]. cbn [snd] in Hv. subst v.
  destruct (str_eqb e k); [reflexivity | exact IH].
Qed.

(** X10. For any list of categories, after the files [fs] are added the
    bucket of a key holds the files of [fs] whose module name is that key
    (for "misc": also those whose module name is no key), in their order
    of arrival; a name that is neither a category nor "misc" has no
    bucket. *)
Theorem aggregator_contents (cats : list str) (fs : list File) (k : str) :
  dict_lookup k (map_ (fold_left add fs (FileAggregatorByMod_init cats)))
  = if existsb (fun key => str_eqb key k) (cats ++ [utf8 "misc"])
    then Some (filter
                 (fun f => str_eqb (classify_with cats (module_modname f)) k)
                 fs)
    else None.
Proof.
  destruct (init_map cats) as (_ & He & Hm).
  destruct (FileAggregatorByMod_init cats) as [d] eqn:Ed. cbn [map_] in *.
  rewrite fold_add_lookup, (dict_lookup_empty k d He), Hm.
  destruct (existsb _ (cats ++ _)); [|reflexivity]. cbn [option_map app].
  f_equal. apply filter_ext. intros f. unfold classify_with.
  rewrite Hm. reflexivity.
Qed.

(** ** [create_full_moodle_diff_messages] *)

Lemma concat_map_r_app {A B : Type} (f : A -> result (list B))
    (xs ys : list A) :
  concat_map_r f (xs ++ ys)
  = (a <- concat_map_r f xs ;; b <- concat_map_r f ys ;; Ok (a ++ b)).
Proof.
  induction xs as [|x xs IH]; cbn [app concat_map_r bind].
  - destruct (concat_map_r f ys); reflexivity.
  - destruct (f x) as [y|e]; cbn [bind]; [|reflexivity]. rewrite IH.
    destruct (concat_map_r f xs) as [a|e]; cbn [bind]; [|reflexivity].
    destruct (concat_map_r f ys) as [b|e]; cbn [bind]; [|reflexivity].
    rewrite app_assoc. reflexivity.
Qed.

Lemma course_without_files (fn : str) (ow : option str) :
  course_messages (mk_Course fn ow []) = Ok [].
Proof. reflexivity. Qed.

(** X11. The builder keeps no state between courses: the messages of a
    batch followed by another are those of the first followed by those of
    the second, with the exception of the first that fails; the empty batch
    gives no message, and a course without files adds nothing. *)
Theorem builder_concatenates (xs ys : list Course) (fn : str)
    (ow : option str) :
  create_full_moodle_diff_messages (xs ++ ys)
  = (a <- create_full_moodle_diff_messages xs ;;
     b <- create_full_moodle_diff_messages ys ;;
     Ok (a ++ b))
  /\ create_full_moodle_diff_messages [] = Ok []
  /\ create_full_moodle_diff_messages (xs ++ mk_Course fn ow [] :: ys)
     = create_full_moodle_diff_messages (xs ++ ys).
Proof.
  rewrite !builder_ordered. unfold ordered_messages.
  split; [apply concat_map_r_app|]. split; [reflexivity|].
  rewrite !concat_map_r_app. cbn [concat_map_r].
  rewrite course_without_files. cbn [bind app].
  destruct (concat_map_r course_messages ys); reflexivity.
Qed.

Lemma concat_map_r_ok {A B : Type} (f : A -> result (list B)) (l : list A) :
  (exists zs, concat_map_r f l = Ok zs)
  <-> (forall x, In x l -> exists ys, f x = Ok ys).
Proof.
  induction l as [|x l IH]; cbn [concat_map_r].
  - split; [intros _ x [] | eauto].
  - split.
    + intros [zs H] y [<- | Hy].
      * destruct (f x); [eauto | discriminate].
      * destruct (f x); [|discriminate]. cbn [bind] in H.
        destruct (concat_map_r f l) as [zs'|]; [|discriminate].
        apply (proj1 IH); eauto.
    + intros H. destruct (H x (or_introl eq_refl)) as [ys ->]. cbn [bind].
      destruct (proj2 IH (fun y Hy => H y (or_intror Hy))) as [zs ->].
      cbn [bind]. eauto.
Qed.

Lemma list_comp_ok {A B : Type} (f : A -> result B) (l : list A) :
  (exists ys, list_comp f l = Ok ys)
  <-> (forall x, In x l -> exists y, f x = Ok y).
Proof.
  induction l as [|x l IH]; cbn [list_comp].
  - split; [intros _ x [] | eauto].
  - split.
    + intros [zs H] y [<- | Hy].
      * destruct (f x); [eauto | discriminate].
      * destruct (f x); [|discriminate]. cbn [bind] in H.
        destruct (list_comp f l) as [zs'|]; [|discriminate].
        apply (proj1 IH); eauto.
    + intros H. destruct (H x (or_introl eq_refl)) as [ys ->]. cbn [bind].
      destruct (proj2 IH (fun y Hy => H y (or_intror Hy))) as [zs ->].
      cbn [bind]. eauto.
Qed.

Lemma classify_calendar (mn : str) :
  str_eqb (classify mn) (utf8 "calendar") = str_eqb mn (utf8 "calendar").
Proof.
  destruct (classify_cases mn) as [[_ ->] | [Hex ->]]; [reflexivity|].
  unfold category_order in Hex; cbn [existsb] in Hex.
  repeat (apply orb_false_elim in Hex as [?E Hex]).
  destruct (str_eqb mn (utf8 "calendar")) eqn:Em; [|reflexivity].
  apply str_eqb_eq in Em; subst mn. discriminate.
Qed.

(** The buckets other than the one of the calendar are always rendered. *)
Lemma handle_bucket_ok (cn cat : str) (b : list File) :
  In cat category_order -> cat <> utf8 "calendar" ->
  exists q, handle_bucket cn (cat, b) [] = Ok q.
Proof.
  intros Hcat Hne. unfold handle_bucket.
  destruct b as [|f b']; [eauto|].
  unfold category_order in Hcat; cbn [In] in Hcat.
  repeat (destruct Hcat as [<- | Hcat]); [..|contradiction]; eval_keys;
    eval_keys; cbv iota; rewrite ?list_comp_total; cbn [bind]; eauto.
  congruence.
Qed.

Lemma course_messages_ok (c : Course) :
  (exists p, course_messages c = Ok p)
  <-> (forall f, In f (files c) ->
                 module_modname f = utf8 "calendar" ->
                 exists m, make_calendar_message f (display_name c) = Ok m).
Proof.
  unfold course_messages. rewrite concat_map_r_ok. split.
  - intros H f Hf Hm.
    destruct (H (utf8 "calendar")) as [q Hq]; [simpl; auto|].
    unfold category_messages, handle_bucket in Hq.
    assert (Hb : In f (bucket (utf8 "calendar") (files c))).
    { apply filter_In. split; [exact Hf|].
      rewrite classify_calendar, Hm. reflexivity. }
    destruct (bucket (utf8 "calendar") (files c)) as [|g b'] eqn:Eb;
      [contradiction|].
    revert Hq. eval_keys. eval_keys. cbv iota. intros Hq.
    destruct (list_comp _ (g :: b')) as [ms|] eqn:El; [|discriminate].
    apply (proj1 (list_comp_ok _ _) (ex_intro _ ms El) f Hb).
  - intros H cat Hcat.
    destruct (str_eqb cat (utf8 "calendar")) eqn:Ec.
    + apply str_eqb_eq in Ec; subst cat.
      unfold category_messages, handle_bucket.
      destruct (bucket (utf8 "calendar") (files c)) as [|g b'] eqn:Eb;
        [eauto|].
      eval_keys. eval_keys. cbv iota.
      destruct (proj2 (list_comp_ok
                  (fun file => make_calendar_message file (display_name c))
                  (g :: b'))) as [ms ->]; [|cbn [bind]; eauto].
      intros f Hf. rewrite <- Eb in Hf. apply filter_In in Hf as [Hf Hc].
      apply H; [exact Hf|]. rewrite classify_calendar in Hc.
      apply str_eqb_eq, Hc.
    + apply handle_bucket_ok; [exact Hcat|].
      apply str_eqb_neq, Ec.
Qed.

(** X12. The builder returns exactly when every file of module name
    "calendar" of every course is rendered by [make_calendar_message];
    no other file can make it raise. *)
Theorem builder_returns_iff (changes : list Course) :
  (exists msgs, create_full_moodle_diff_messages changes = Ok msgs)
  <-> (forall c f, In c changes -> In f (files c) ->
                   module_modname f = utf8 "calendar" ->
                   exists m,
                     make_calendar_message f
                       (or_else (overwrite_name_with c) (fullname c)) = Ok m).
Proof.
  rewrite builder_ordered. unfold ordered_messages. rewrite concat_map_r_ok.
  split.
  - intros H c f Hc. rewrite or_else_display. apply course_messages_ok, H, Hc.
  - intros H c Hc. apply course_messages_ok. intros f.
    rewrite <- or_else_display. apply H, Hc.
Qed.

Lemma concat_map_r_bounds {A B : Type} (f : A -> result (list B))
    (lo hi : A -> nat) (l : list A) :
  (forall x ys, In x l -> f x = Ok ys ->
                (lo x <= List.length ys <= hi x)%nat) ->
  forall zs, concat_map_r f l = Ok zs ->
  (list_sum (map lo l) <= List.length zs <= list_sum (map hi l))%nat.
Proof.
  induction l as [|x l IH]; intros Hf zs; cbn [concat_map_r].
  - intros [= <-]. simpl. lia.
  - destruct (f x) as [ys|e] eqn:Ex; cbn [bind]; [|discriminate].
    destruct (concat_map_r f l) as [zs'|e] eqn:El; cbn [bind]; [|discriminate].
    intros [= <-]. rewrite length_app.
    pose proof (Hf x ys (or_introl eq_refl) Ex).
    pose proof (IH (fun y ys' Hy => Hf y ys' (or_intror Hy)) zs' eq_refl).
    simpl map. simpl list_sum. lia.
Qed.

Lemma list_comp_length {A B : Type} (f : A -> result B) (l : list A)
    (ys : list B) :
  list_comp f l = Ok ys -> List.length ys = List.length l.
Proof.
  intros H. apply list_comp_Forall2 in H.
  induction H; simpl; [reflexivity | f_equal; assumption].
Qed.

Lemma handle_bucket_length (cn cat : str) (b : list File)
    (q : list NtfyMessage) :
  In cat category_order -> handle_bucket cn (cat, b) [] = Ok q ->
  (Nat.min 1 (List.length b) <= List.length q <= List.length b)%nat.
Proof.
  intros Hcat. unfold handle_bucket.
  destruct b as [|f b']; [intros [= <-]; simpl; lia|].
  set (b := f :: b') in *.
  assert (Hb : List.length b = S (List.length b')) by reflexivity.
  unfold category_order in Hcat; cbn [In] in Hcat.
  repeat (destruct Hcat as [<- | Hcat]); [..|contradiction]; eval_keys;
    eval_keys; cbv iota; rewrite ?list_comp_total; cbn [bind app];
    try (intros [= <-]; cbn [List.length]; lia).
  - destruct (list_comp _ b) as [ms|e] eqn:E; cbn [bind]; [|discriminate].
    intros [= <-]. apply list_comp_length in E. lia.
  - intros [= <-]. simpl. rewrite length_map. simpl in Hb. lia.
  - intros [= <-]. simpl. rewrite length_map. simpl in Hb. lia.
Qed.

Lemma list_sum_In {A : Type} (g : A -> nat) (x : A) (l : list A) :
  In x l -> (g x <= list_sum (map g l))%nat.
Proof.
  induction l as [|y l IH]; [contradiction|].
  intros [-> | H]; simpl; [lia | specialize (IH H); lia].
Qed.

Lemma course_messages_length (c : Course) (p : list NtfyMessage) :
  course_messages c = Ok p ->
  (Nat.min 1 (List.length (files c)) <= List.length p
   <= List.length (files c))%nat.
Proof.
  intros Hp.
  pose proof (concat_map_r_bounds (category_messages c)
                (fun cat => Nat.min 1 (List.length (bucket cat (files c))))
                (fun cat => List.length (bucket cat (files c)))
                category_order
                (fun cat q Hcat Hq =>
                   handle_bucket_length (display_name c) cat _ q Hcat Hq)
                p Hp) as [Hlo Hhi].
  rewrite bucket_lengths in Hhi. split; [|exact Hhi].
  destruct (files c) as [|f fs] eqn:Ef; [simpl; lia|].
  eapply Nat.le_trans; [|exact Hlo].
  eapply Nat.le_trans;
    [|apply (list_sum_In
               (fun cat => Nat.min 1 (List.length (bucket cat (f :: fs))))
               (classify (module_modname f)) _
               (classify_in_order _))].
  cbv beta. unfold bucket; cbn [filter]. rewrite str_eqb_refl. simpl. lia.
Qed.

Lemma courses_with_files_sum (changes : list Course) :
  courses_with_files changes
  = list_sum (map (fun c => Nat.min 1 (List.length (files c))) changes).
Proof.
  unfold courses_with_files.
  induction changes as [|c cs IH]; [reflexivity|].
  change (list_sum (map ?g (c :: cs))) with (g c + list_sum (map g cs))%nat.
  rewrite <- IH. cbn [filter].
  destruct (files c); reflexivity.
Qed.

(** X13. When the builder returns, it gives at least one message for
    each course that has files, and at most one message for each file. *)
Theorem message_count_bounds (changes : list Course)
    (msgs : list NtfyMessage) :
  create_full_moodle_diff_messages changes = Ok msgs ->
  (courses_with_files changes <= List.length msgs <= total_input changes)%nat.
Proof.
  rewrite builder_ordered. unfold ordered_messages. intros H.
  rewrite courses_with_files_sum. unfold total_input.
  apply (concat_map_r_bounds course_messages); [|exact H].
  intros c p _ Hp. apply course_messages_length, Hp.
Qed.

Lemma message_count_bounds_witness :
  (courses_with_files algebra_batch <= 2 <= total_input algebra_batch)%nat.
Proof.
  apply (message_count_bounds algebra_batch
           [ mk_NtfyMessage (utf8 "📝 1 assignment file updates")
               (join_lines [ utf8 "📘 Algebra I";
                             utf8 "● HW1.pdf (Assigment File) (modified)" ])
               None;
             mk_NtfyMessage (utf8 "📚 2 file updates")
               (join_lines [ utf8 "📘 Algebra I"; utf8 "● Syllabus.pdf";
                             utf8 "● Notes.pdf" ])
               None ]).
  vm_compute; reflexivity.
Defined.

Lemma concat_map_r_In {A B : Type} (f : A -> result (list B)) (l : list A)
    (zs : list B) (z : B) :
  concat_map_r f l = Ok zs -> In z zs ->
  exists x ys, In x l /\ f x = Ok ys /\ In z ys.
Proof.
  revert zs; induction l as [|x l IH]; intros zs; cbn [concat_map_r].
  - intros [= <-] [].
  - destruct (f x) as [ys|e] eqn:Ex; cbn [bind]; [|discriminate].
    destruct (concat_map_r f l) as [zs'|e]; cbn [bind]; [|discriminate].
    intros [= <-] Hz. apply in_app_or in Hz as [Hz | Hz].
    + exists x, ys. simpl; auto.
    + destruct (IH zs' eq_refl Hz) as (y & ys' & Hy & Ey & Hz').
      exists y, ys'. simpl; auto.
Qed.

Lemma Forall2_In_r {A B : Type} (P : A -> B -> Prop) (l : list A)
    (ms : list B) (m : B) :
  Forall2 P l ms -> In m ms -> exists x, In x l /\ P x m.
Proof.
  induction 1 as [|x y l ms Hxy _ IH]; [intros []|].
  intros [<- | Hm]; [exists x; simpl; auto|].
  destruct (IH Hm) as (z & Hz & Pz). exists z; simpl; auto.
Qed.

Lemma handle_bucket_course_line (cn cat : str) (b : list File)
    (q : list NtfyMessage) (m : NtfyMessage) :
  In cat category_order -> handle_bucket cn (cat, b) [] = Ok q -> In m q ->
  exists rest, text m = _get_course_name_str cn ++ rest.
Proof.
  intros Hcat. unfold handle_bucket.
  destruct b as [|f b']; [intros [= <-] []|].
  assert (Hcomb : forall kw e act,
            In m [make_generic_combined_message (f :: b') cn kw e act] ->
            exists rest, text m = _get_course_name_str cn ++ rest).
  { intros kw e act [<- | []].
    destruct (combined_text_head f b' cn kw e act) as (rest & ->). eauto. }
  set (b := f :: b') in *.
  unfold category_order in Hcat; cbn [In] in Hcat.
  repeat (destruct Hcat as [<- | Hcat]); [..|contradiction]; eval_keys;
    eval_keys; cbv iota; rewrite ?list_comp_total; cbn [bind app];
    try (intros [= <-]; apply Hcomb).
  - destruct (list_comp _ b) as [ms|e] eqn:E; cbn [bind]; [|discriminate].
    intros [= <-] Hm. apply list_comp_Forall2 in E.
    destruct (Forall2_In_r _ _ _ _ E Hm) as (x & _ & Hx).
    apply calendar_rendered in Hx as (? & ? & ? & ? & _ & _ & _ & _ & _ & ->).
    exists []. cbn [text]. rewrite app_nil_r. reflexivity.
  - intros [= <-] Hm.
    change (In m (map (fun x => make_forum_message x cn) b)) in Hm.
    apply in_map_iff in Hm as (x & <- & _).
    exists []. cbn [text make_forum_message]. rewrite app_nil_r. reflexivity.
  - intros [= <-] Hm.
    change (In m (map (fun x => make_quiz_message x cn) b)) in Hm.
    apply in_map_iff in Hm as (x & <- & _).
    exists []. unfold make_quiz_message, make_generic_message. cbn [text].
    rewrite app_nil_r. reflexivity.
Qed.

(** X14. Every message of the builder starts its body with the book and
    the display name of a course of the batch. *)
Theorem messages_name_their_course (changes : list Course)
    (msgs : list NtfyMessage) (m : NtfyMessage) :
  create_full_moodle_diff_messages changes = Ok msgs -> In m msgs ->
  exists c rest,
    In c changes
    /\ text m
       = utf8 "📘 " ++ or_else (overwrite_name_with c) (fullname c) ++ rest.
Proof.
  rewrite builder_ordered. unfold ordered_messages. intros H Hm.
  destruct (concat_map_r_In _ _ _ _ H Hm) as (c & p & Hc & Hp & Hmp).
  destruct (concat_map_r_In _ _ _ _ Hp Hmp) as (cat & q & Hcat & Hq & Hmq).
  destruct (handle_bucket_course_line _ _ _ _ _ Hcat Hq Hmq) as (rest & E).
  exists c, rest. split; [exact Hc|]. rewrite E, or_else_display.
  unfold _get_course_name_str. rewrite <- app_assoc. reflexivity.
Qed.

Lemma messages_name_their_course_witness :
  exists c rest,
    In c algebra_batch
    /\ text (mk_NtfyMessage (utf8 "📚 2 file updates")
               (join_lines [ utf8 "📘 Algebra I"; utf8 "● Syllabus.pdf";
                             utf8 "● Notes.pdf" ])
               None)
       = utf8 "📘 " ++ or_else (overwrite_name_with c) (fullname c) ++ rest.
Proof.
  apply (messages_name_their_course algebra_batch
           [ mk_NtfyMessage (utf8 "📝 1 assignment file updates")
               (join_lines [ utf8 "📘 Algebra I";
                             utf8 "● HW1.pdf (Assigment File) (modified)" ])
               None;
             mk_NtfyMessage (utf8 "📚 2 file updates")
               (join_lines [ utf8 "📘 Algebra I"; utf8 "● Syllabus.pdf";
                             utf8 "● Notes.pdf" ])
               None ]).
  - vm_compute; reflexivity.
  - right; left; reflexivity.
Defined.

Lemma handle_bucket_nil (cn k : str) (msgs : list NtfyMessage) :
  handle_bucket cn (k, []) msgs = Ok msgs.
Proof. reflexivity. Qed.

Lemma bucket_single (cat cat' : str) (fs : list File) :
  forallb (fun f => str_eqb (classify (module_modname f)) cat) fs = true ->
  bucket cat' fs = if str_eqb cat cat' then fs else [].
Proof.
  intros H. unfold bucket. induction fs as [|f fs IH].
  - destruct (str_eqb cat cat'); reflexivity.
  - cbn [forallb] in H. apply andb_true_iff in H as [Hf Hfs].
    apply str_eqb_eq in Hf. cbn [filter]. rewrite Hf, (IH Hfs).
    destruct (str_eqb cat cat'); reflexivity.
Qed.

(** A course whose files are all of one category has the messages of that
    category only. *)
Lemma single_category (c : Course) (cat : str) :
  In cat category_order ->
  forallb (fun f => str_eqb (classify (module_modname f)) cat) (files c)
  = true ->
  course_messages c = handle_bucket (display_name c) (cat, files c) [].
Proof.
  intros Hcat H. unfold course_messages, category_messages, category_order.
  cbn [concat_map_r]. rewrite !(bucket_single cat _ _ H).
  unfold category_order in Hcat; cbn [In] in Hcat.
  repeat (destruct Hcat as [<- | Hcat]); [..|contradiction]; eval_keys;
    cbv iota; rewrite !handle_bucket_nil; cbn [bind app];
    destruct (handle_bucket _ _ _); cbn [bind app]; rewrite ?app_nil_r;
    reflexivity.
Qed.

Lemma builder_one_course (c : Course) :
  create_full_moodle_diff_messages [c] = course_messages c.
Proof.
  rewrite builder_ordered. unfold ordered_messages. cbn [concat_map_r].
  destruct (course_messages c); cbn [bind]; rewrite ?app_nil_r; reflexivity.
Qed.

Lemma unrecognised_is_misc (mn : str) :
  existsb (fun key => str_eqb key mn) default_mod_categories = false ->
  classify mn = utf8 "misc".
Proof.
  intros H. destruct (classify_cases mn) as [[Hin ->] | [_ ->]];
    [|reflexivity].
  unfold category_order in Hin; cbn [In] in Hin.
  repeat (destruct Hin as [<- | Hin]); try discriminate H;
    [reflexivity | contradiction].
Qed.

(** X15. A course with at least one file, none of whose module names is
    one of the six recognised categories (compared as they are, so "Quiz"
    is not "quiz"), is rendered as one combined message of the catch-all,
    over all its files in their order. *)
Theorem unrecognised_modules_digest (fn : str) (ow : option str) (f : File)
    (fs : list File) :
  forallb
    (fun g =>
       negb (existsb (fun key => str_eqb key (module_modname g))
               default_mod_categories))
    (f :: fs) = true ->
  create_full_moodle_diff_messages [mk_Course fn ow (f :: fs)]
  = Ok [ make_generic_combined_message (f :: fs) (or_else ow fn)
           (utf8 "misc") (Some (utf8 "🗂️")) false ].
Proof.
  intros H. rewrite builder_one_course.
  rewrite (single_category _ (utf8 "misc")); [|simpl; tauto|].
  - cbn [files]. rewrite <- or_else_display. reflexivity.
  - cbn [files]. rewrite forallb_forall in *. intros g Hg.
    specialize (H g Hg). apply negb_true_iff in H.
    rewrite (unrecognised_is_misc _ H). reflexivity.
Qed.

Lemma unrecognised_modules_digest_witness :
  create_full_moodle_diff_messages
    [mk_Course (utf8 "C") None
       [ file_of "Home" "page" "wiki" false false false;
         file_of "Link" "url" "Quiz" false true false ]]
  = Ok [ make_generic_combined_message
           [ file_of "Home" "page" "wiki" false false false;
             file_of "Link" "url" "Quiz" false true false ]
           (or_else None (utf8 "C"))
           (utf8 "misc") (Some (utf8 "🗂️")) false ].
Proof.
  apply (unrecognised_modules_digest (utf8 "C") None
           (file_of "Home" "page" "wiki" false false false)
           [file_of "Link" "url" "Quiz" false true false]).
  vm_compute; reflexivity.
Defined.

(** X16. A course with quizzes only gives one message for each quiz,
    in the order of the files, and so does a course with forum posts only;
    a course that lists the posts before the quizzes gets the same
    messages as one that lists them after. *)
Theorem single_events_in_order (fn : str) (ow : option str)
    (quizzes posts : list File) :
  forallb (fun f => str_eqb (module_modname f) (utf8 "quiz")) quizzes = true ->
  forallb (fun f => str_eqb (module_modname f) (utf8 "forum")) posts = true ->
  create_full_moodle_diff_messages [mk_Course fn ow quizzes]
  = Ok (map (fun f => mk_NtfyMessage (utf8 "💻 " ++ content_filename f)
                        (utf8 "📘 " ++ or_else ow fn) (content_fileurl f))
          quizzes)
  /\ create_full_moodle_diff_messages [mk_Course fn ow posts]
     = Ok (map (fun f => mk_NtfyMessage
                           (utf8 "✉️ "
                            ++ remove_until_first_space (content_filepath f))
                           (utf8 "📘 " ++ or_else ow fn) (content_fileurl f))
             posts)
  /\ create_full_moodle_diff_messages [mk_Course fn ow (posts ++ quizzes)]
     = create_full_moodle_diff_messages [mk_Course fn ow (quizzes ++ posts)].
Proof.
  intros Hq Hp.
  assert (Cq : forall l,
            forallb (fun f => str_eqb (module_modname f) (utf8 "quiz")) l
            = true ->
            forallb (fun f => str_eqb (classify (module_modname f))
                                (utf8 "quiz")) l = true).
  { intros l. rewrite !forallb_forall. intros H f Hf.
    specialize (H f Hf). apply str_eqb_eq in H. rewrite H. reflexivity. }
  assert (Cp : forall l,
            forallb (fun f => str_eqb (module_modname f) (utf8 "forum")) l
            = true ->
            forallb (fun f => str_eqb (classify (module_modname f))
                                (utf8 "forum")) l = true).
  { intros l. rewrite !forallb_forall. intros H f Hf.
    specialize (H f Hf). apply str_eqb_eq in H. rewrite H. reflexivity. }
  split; [|split].
  - rewrite builder_one_course, (single_category _ (utf8 "quiz"));
      [|simpl; tauto | apply Cq, Hq].
    cbn [files]. rewrite <- or_else_display. cbn [overwrite_name_with fullname].
    unfold handle_bucket. eval_keys. eval_keys. cbv iota.
    destruct quizzes; [reflexivity|].
    rewrite list_comp_total. reflexivity.
  - rewrite builder_one_course, (single_category _ (utf8 "forum"));
      [|simpl; tauto | apply Cp, Hp].
    cbn [files]. rewrite <- or_else_display. cbn [overwrite_name_with fullname].
    unfold handle_bucket. eval_keys. eval_keys. cbv iota.
    destruct posts; [reflexivity|].
    rewrite list_comp_total. reflexivity.
  - rewrite !builder_one_course. unfold course_messages, category_messages.
    cbn [files display_name overwrite_name_with fullname].
    assert (B : forall cat, bucket cat (posts ++ quizzes)
                            = bucket cat posts ++ bucket cat quizzes)
      by (intros; apply filter_app).
    assert (B' : forall cat, bucket cat (quizzes ++ posts)
                             = bucket cat quizzes ++ bucket cat posts)
      by (intros; apply filter_app).
    apply Cq in Hq. apply Cp in Hp.
    unfold category_order. cbn [concat_map_r].
    rewrite !B, !B', !(bucket_single _ _ _ Hq), !(bucket_single _ _ _ Hp).
    eval_keys. cbv iota. rewrite ?app_nil_r. reflexivity.
Qed.

Lemma single_events_in_order_witness :
  create_full_moodle_diff_messages
    [mk_Course (utf8 "C") None
       [file_of "Quiz 1" "t" "quiz" false false false]]
  = Ok (map (fun f => mk_NtfyMessage (utf8 "💻 " ++ content_filename f)
                        (utf8 "📘 " ++ or_else None (utf8 "C"))
                        (content_fileurl f))
          [file_of "Quiz 1" "t" "quiz" false false false])
  /\ create_full_moodle_diff_messages
       [mk_Course (utf8 "C") None
          [file_of "Post" "t" "forum" false false false]]
     = Ok (map (fun f => mk_NtfyMessage
                           (utf8 "✉️ "
                            ++ remove_until_first_space (content_filepath f))
                           (utf8 "📘 " ++ or_else None (utf8 "C"))
                           (content_fileurl f))
             [file_of "Post" "t" "forum" false false false])
  /\ create_full_moodle_diff_messages
       [mk_Course (utf8 "C") None
          ([file_of "Post" "t" "forum" false false false]
           ++ [file_of "Quiz 1" "t" "quiz" false false false])]
     = create_full_moodle_diff_messages
         [mk_Course (utf8 "C") None
            ([file_of "Quiz 1" "t" "quiz" false false false]
             ++ [file_of "Post" "t" "forum" false false false])].
Proof.
  apply (single_events_in_order (utf8 "C") None
           [file_of "Quiz 1" "t" "quiz" false false false]
           [file_of "Post" "t" "forum" false false false]);
    vm_compute; reflexivity.
Defined.

Lemma plain_line_weaken (fs : list File) :
  forallb (plain_line true) fs = true -> forallb (plain_line false) fs = true.
Proof.
  rewrite !forallb_forall. intros H f Hf. specialize (H f Hf).
  unfold plain_line in *. apply andb_true_iff in H as [Hn _].
  rewrite Hn. reflexivity.
Qed.

Lemma title_of_combined (fs : list File) (cn kw : str) (act : bool) (x : char)
    (e : str) :
  title (make_generic_combined_message fs cn kw (Some (x :: e)) act)
  = (x :: e) ++ ch " " :: str_of_nat (List.length fs) ++ utf8 " " ++ kw
    ++ utf8 " updates".
Proof.
  unfold make_generic_combined_message; cbn [title truthy empty app].
  rewrite <- !app_assoc. reflexivity.
Qed.

Lemma title_number (fs : list File) (cn kw : str) (act : bool) (x : char)
    (e : str) :
  contains (ch " ") (x :: e) = false ->
  leading_number
    (remove_until_first_space
       (title (make_generic_combined_message fs cn kw (Some (x :: e)) act)))
  = List.length fs.
Proof.
  intros He. rewrite title_of_combined. unfold remove_until_first_space.
  rewrite contains_sep_app, (split_app_sep _ _ _ _ He), split_0.
  cbn [nth]. apply leading_number_str_of_nat.
Qed.

(** X17. In the combined messages of assign, of resource and folder, and
    of the catch-all, the number in the title is the number of bullet
    lines of the body, and the number of files, when neither the course
    name nor a file name or content type holds a line break. *)
Theorem title_counts_bullets (fs : list File) (cn : str) :
  no_line_break cn = true -> forallb (plain_line true) fs = true ->
  leading_number
    (remove_until_first_space (title (make_assign_combined_message fs cn)))
  = bullet_lines (text (make_assign_combined_message fs cn))
  /\ leading_number
       (remove_until_first_space
          (title (make_resource_combined_message fs cn)))
     = bullet_lines (text (make_resource_combined_message fs cn))
  /\ leading_number
       (remove_until_first_space
          (title (make_generic_combined_message fs cn (utf8 "misc")
                    (Some (utf8 "🗂️")) false)))
     = bullet_lines
         (text (make_generic_combined_message fs cn (utf8 "misc")
                  (Some (utf8 "🗂️")) false))
  /\ bullet_lines (text (make_assign_combined_message fs cn))
     = List.length fs.
Proof.
  intros Hcn Hfs. pose proof (plain_line_weaken fs Hfs) as Hfs'.
  unfold make_assign_combined_message, make_resource_combined_message.
  rewrite !combined_bullet_lines by assumption.
  repeat split; apply title_number; reflexivity.
Qed.

Lemma title_counts_bullets_witness :
  leading_number
    (remove_until_first_space
       (title (make_assign_combined_message [midterm_event] (utf8 "C"))))
  = bullet_lines (text (make_assign_combined_message [midterm_event] (utf8 "C")))
  /\ leading_number
       (remove_until_first_space
          (title (make_resource_combined_message [midterm_event] (utf8 "C"))))
     = bullet_lines
         (text (make_resource_combined_message [midterm_event] (utf8 "C")))
  /\ leading_number
       (remove_until_first_space
          (title (make_generic_combined_message [midterm_event] (utf8 "C")
                    (utf8 "misc") (Some (utf8 "🗂️")) false)))
     = bullet_lines
         (text (make_generic_combined_message [midterm_event] (utf8 "C")
                  (utf8 "misc") (Some (utf8 "🗂️")) false))
  /\ bullet_lines (text (make_assign_combined_message [midterm_event] (utf8 "C")))
     = List.length [midterm_event].
Proof.
  apply (title_counts_bullets [midterm_event] (utf8 "C"));
    vm_compute; reflexivity.
Defined.

Lemma handle_bucket_raises_calendar (cn cat : str) (b : list File) (e : exn) :
  In cat category_order -> handle_bucket cn (cat, b) [] = Raise e ->
  cat = utf8 "calendar"
  /\ exists f, In f b /\ make_calendar_message f cn = Raise e.
Proof.
  intros Hcat. unfold handle_bucket.
  destruct b as [|f b']; [discriminate|].
  set (b := f :: b') in *.
  unfold category_order in Hcat; cbn [In] in Hcat.
  repeat (destruct Hcat as [<- | Hcat]); [..|contradiction]; eval_keys;
    eval_keys; cbv iota; rewrite ?list_comp_total; cbn [bind];
    try discriminate.
  destruct (list_comp _ b) as [ms|e'] eqn:E; cbn [bind]; [discriminate|].
  intros [= <-]. apply list_comp_raises in E. auto.
Qed.

(** X18. When the builder raises, the exception is the [ValueError] that
    [make_calendar_message] raises on a file of module name "calendar" of
    a course of the batch. *)
Theorem builder_raises_from_calendar (changes : list Course) (e : exn) :
  create_full_moodle_diff_messages changes = Raise e ->
  exists c f w,
    In c changes /\ In f (files c)
    /\ module_modname f = utf8 "calendar"
    /\ make_calendar_message f (or_else (overwrite_name_with c) (fullname c))
       = Raise e
    /\ e = ValueError w.
Proof.
  rewrite builder_ordered. unfold ordered_messages. intros H.
  apply concat_map_r_raises in H as (c & Hc & H).
  apply concat_map_r_raises in H as (cat & Hcat & H).
  apply handle_bucket_raises_calendar in H as (-> & f & Hf & Hr);
    [|exact Hcat].
  apply filter_In in Hf as [Hf Hm]. rewrite classify_calendar in Hm.
  apply str_eqb_eq in Hm.
  destruct (make_calendar_message_raises _ _ _ Hr) as (w & Hw).
  exists c, f, w. rewrite or_else_display. auto.
Qed.

Lemma builder_raises_from_calendar_witness :
  exists c f w,
    In c [mk_Course (utf8 "C") None [one_token_event]] /\ In f (files c)
    /\ module_modname f = utf8 "calendar"
    /\ make_calendar_message f (or_else (overwrite_name_with c) (fullname c))
       = Raise (ValueError (not_enough_values_to_unpack 3 1))
    /\ ValueError (not_enough_values_to_unpack 3 1) = ValueError w.
Proof.
  apply (builder_raises_from_calendar
           [mk_Course (utf8 "C") None [one_token_event]]).
  vm_compute; reflexivity.
Defined.
